(** * Job listings scraper and analyzer

    A shallow embedding of [job_scraper_analyzer.py] and the properties of its
    extraction-and-normalization pipeline.

    - [PyStr]: the Python [str] methods the program calls ([lower], [title],
      [strip], [in], [replace]), on ASCII text.
    - [Re]: the regular expressions of the program as syntax trees, with the
      backtracking search of Python's [re.search] and [re.sub].
    - [Pandas]: the few [DataFrame] / [Series] operations the Analyzer uses,
      over dynamically typed cells; a missing column raises [KeyError].
    - [JobScraper], [JobAnalyzer]: the two classes of the program.
    - [Extraction]: how the Collector locates job elements on a parsed page
      and reads the text of a field through its list of selectors.

    Text is ASCII: character classes, case mapping and whitespace are those of
    Python on code points below 128, and the patterns of the program are
    its patterns on such text.  A property that would not hold of the
    program on other text is stated for ASCII text ([is_ascii]).  Console
    output, the courtesy delay between requests, charts and CSV export are
    not part of the model. *)

From Stdlib Require Import String Ascii List Bool Arith Lia DecimalString.
Import ListNotations.
Local Open Scope list_scope.
Local Open Scope string_scope.

(* ================================================================== *)
(** ** Exceptions *)

Inductive exn :=
| KeyError (key : string)
| AttributeError
| TypeError
| RequestException
| OtherException.

Inductive result (A : Type) :=
| Ok (a : A)
| Raise (e : exn).

Arguments Ok {A} a.
Arguments Raise {A} e.

Definition bind {A B} (m : result A) (f : A -> result B) : result B :=
  match m with
  | Ok a => f a
  | Raise e => Raise e
  end.

Notation "x <- m ;; k" := (bind m (fun x => k))
  (at level 61, m at next level, right associativity).

Fixpoint mapM {A B} (f : A -> result B) (l : list A) : result (list B) :=
  match l with
  | [] => Ok []
  | a :: l' => b <- f a ;; bs <- mapM f l' ;; Ok (b :: bs)
  end.

(* ================================================================== *)
(** ** Python strings *)

Module PyStr.

Definition code (c : ascii) : nat := nat_of_ascii c.

Definition between (lo hi : nat) (c : ascii) : bool :=
  (lo <=? code c)%nat && (code c <=? hi)%nat.

Definition isupper (c : ascii) : bool := between 65 90 c.
Definition islower (c : ascii) : bool := between 97 122 c.
Definition isalpha (c : ascii) : bool := isupper c || islower c.
Definition isdigit (c : ascii) : bool := between 48 57 c.

(** [str.isspace], also the class [\s]: tab, LF, VT, FF, CR, the four
    separators FS GS RS US, and the space. *)
Definition isspace (c : ascii) : bool := between 9 13 c || between 28 32 c.

(** The class [\w]. *)
Definition isword (c : ascii) : bool :=
  isalpha c || isdigit c || (c =? "_")%char.

Definition lower_char (c : ascii) : ascii :=
  if isupper c then ascii_of_nat (code c + 32) else c.

Definition upper_char (c : ascii) : ascii :=
  if islower c then ascii_of_nat (code c - 32) else c.

(** [s.lower()] *)
Fixpoint lower (s : string) : string :=
  match s with
  | "" => ""
  | String c s' => String (lower_char c) (lower s')
  end.

(** [s.title()]: a cased character is upper-cased when the character before
    it is not cased, and lower-cased otherwise. *)
Fixpoint title_from (previous_is_cased : bool) (s : string) : string :=
  match s with
  | "" => ""
  | String c s' =>
      if isalpha c
      then String (if previous_is_cased then lower_char c else upper_char c)
                  (title_from true s')
      else String c (title_from false s')
  end.

Definition title (s : string) : string := title_from false s.

Fixpoint lstrip (s : string) : string :=
  match s with
  | "" => ""
  | String c s' => if isspace c then lstrip s' else s
  end.

Fixpoint rstrip (s : string) : string :=
  match s with
  | "" => ""
  | String c s' =>
      match rstrip s' with
      | "" => if isspace c then "" else String c ""
      | t => String c t
      end
  end.

(** [s.strip()] *)
Definition strip (s : string) : string := rstrip (lstrip s).

(** The longest prefix whose characters all satisfy [p], and what follows
    it. *)
Fixpoint take_while (p : ascii -> bool) (s : string) : string :=
  match s with
  | "" => ""
  | String c s' => if p c then String c (take_while p s') else ""
  end.

Fixpoint drop_while (p : ascii -> bool) (s : string) : string :=
  match s with
  | "" => ""
  | String c s' => if p c then drop_while p s' else s
  end.

(** [sub in s] *)
Fixpoint contains (sub s : string) : bool :=
  prefix sub s ||
  match s with
  | "" => false
  | String _ s' => contains sub s'
  end.

(** [s.replace(old, new)] for one-character [old] and [new]. *)
Fixpoint replace (old new : ascii) (s : string) : string :=
  match s with
  | "" => ""
  | String c s' =>
      String (if (c =? old)%char then new else c) (replace old new s')
  end.

(** [str(n)] for a non-negative integer. *)
Definition of_nat (n : nat) : string :=
  NilEmpty.string_of_uint (Nat.to_uint n).

End PyStr.

(* ================================================================== *)
(** ** Regular expressions *)

Module Re.

(** The constructs that occur in the program's patterns.  Repetition is
    only ever applied to a character class. *)
Inductive regex :=
| Bol                          (* ^ *)
| Eol                          (* $ *)
| Cls (p : ascii -> bool)      (* one character of a class *)
| Lit (s : string)             (* literal text *)
| Plus (p : ascii -> bool)     (* class+ , greedy *)
| Star (p : ascii -> bool)     (* class* , greedy *)
| Cat (r1 r2 : regex)
| Alt (r1 r2 : regex)          (* r1|r2 *)
| Opt (r : regex).             (* (?:r)? , greedy *)

(** Greedy repetition of a class: take one more character first, give it
    back when the rest of the pattern fails. *)
Fixpoint star_greedy (p : ascii -> bool) (s : string)
         (k : string -> option string) : option string :=
  match s with
  | String c s' =>
      if p c
      then match star_greedy p s' k with
           | Some rest => Some rest
           | None => k s
           end
      else k s
  | "" => k ""
  end.

Fixpoint drop_prefix (lit s : string) : option string :=
  match lit, s with
  | "", _ => Some s
  | String a lit', String b s' =>
      if (a =? b)%char then drop_prefix lit' s' else None
  | String _ _, "" => None
  end.

(** [run n r s k]: match [r] at the front of [s], the text that is left of
    a subject of length [n], then continue with [k] on what remains;
    alternatives are tried in priority order and the first overall success
    is returned (the text left after the whole match). *)
Fixpoint run (n : nat) (r : regex) (s : string)
         (k : string -> option string) : option string :=
  match r with
  | Bol => if (String.length s =? n)%nat then k s else None
  | Eol => if (s =? "") || (s =? String "010" "") then k s else None
  | Cls p =>
      match s with
      | String c s' => if p c then k s' else None
      | "" => None
      end
  | Lit lit =>
      match drop_prefix lit s with
      | Some s' => k s'
      | None => None
      end
  | Plus p =>
      match s with
      | String c s' => if p c then star_greedy p s' k else None
      | "" => None
      end
  | Star p => star_greedy p s k
  | Cat r1 r2 => run n r1 s (fun s1 => run n r2 s1 k)
  | Alt r1 r2 =>
      match run n r1 s k with
      | Some rest => Some rest
      | None => run n r2 s k
      end
  | Opt r1 =>
      match run n r1 s k with
      | Some rest => Some rest
      | None => k s
      end
  end.

(** The match of [r] that starts at the front of [s], if any. *)
Definition match_here (n : nat) (r : regex) (s : string) : option string :=
  match run n r s Some with
  | Some rest => Some (substring 0 (String.length s - String.length rest) s)
  | None => None
  end.

Fixpoint search_from (n : nat) (r : regex) (s : string) : option string :=
  match match_here n r s with
  | Some m => Some m
  | None =>
      match s with
      | "" => None
      | String _ s' => search_from n r s'
      end
  end.

(** [re.search(r, s)]: the text of the leftmost match ([group(0)]), or
    [None]. *)
Definition search (r : regex) (s : string) : option string :=
  search_from (String.length s) r s.

(** [re.sub(r, repl, s)] for a pattern whose matches are never empty:
    [skip] counts the characters of the current match still to be dropped. *)
Fixpoint sub_from (n : nat) (r : regex) (repl : string) (skip : nat)
         (s : string) : string :=
  match s with
  | "" => ""
  | String c s' =>
      match skip with
      | S skip' => sub_from n r repl skip' s'
      | O =>
          match match_here n r s with
          | Some (String _ m) => repl ++ sub_from n r repl (String.length m) s'
          | _ => String c (sub_from n r repl 0 s')
          end
      end
  end.

Definition sub (r : regex) (repl s : string) : string :=
  sub_from (String.length s) r repl 0 s.

Fixpoint all_in (p : ascii -> bool) (s : string) : bool :=
  match s with
  | "" => true
  | String c s' => p c && all_in p s'
  end.

Definition is_empty (s : string) : bool :=
  match s with
  | "" => true
  | _ => false
  end.

(** The texts a pattern matches, independently of any search strategy:
    [matches at_start r m rest] says that [r] matches the text [m] when
    [m] is followed by [rest] in the subject, [at_start] telling whether
    [m] begins at the start of the subject. *)
Inductive matches : bool -> regex -> string -> string -> Prop :=
| M_Bol rest : matches true Bol "" rest
| M_Eol b rest :
    rest = "" \/ rest = String "010" "" -> matches b Eol "" rest
| M_Cls b p c rest : p c = true -> matches b (Cls p) (String c "") rest
| M_Lit b s rest : matches b (Lit s) s rest
| M_Plus b p m rest :
    m <> "" -> all_in p m = true -> matches b (Plus p) m rest
| M_Star b p m rest : all_in p m = true -> matches b (Star p) m rest
| M_Cat b r1 r2 m1 m2 rest :
    matches b r1 m1 (m2 ++ rest) ->
    matches (b && is_empty m1) r2 m2 rest ->
    matches b (Cat r1 r2) (m1 ++ m2) rest
| M_AltL b r1 r2 m rest : matches b r1 m rest -> matches b (Alt r1 r2) m rest
| M_AltR b r1 r2 m rest : matches b r2 m rest -> matches b (Alt r1 r2) m rest
| M_OptNone b r rest : matches b (Opt r) "" rest
| M_OptSome b r m rest : matches b r m rest -> matches b (Opt r) m rest.

(** [m] occurs in [s] after [pre] and is matched there by [r]. *)
Definition matches_in (r : regex) (s pre m : string) : Prop :=
  exists post, s = pre ++ m ++ post /\ matches (is_empty pre) r m post.

End Re.

(* ================================================================== *)
(** ** Raw job records *)

(** The dictionary the Collector builds for one job element: five free-text
    fields, the empty string standing for an absent one. *)
Record RawJobRecord := mkJob {
  title : string;
  company : string;
  location : string;
  salary : string;
  skills : string
}.

(* ================================================================== *)
(** ** The pandas operations of the Analyzer *)

Module Pandas.

(** A cell of an object column: a missing value, a string, or a list of
    strings. *)
Inductive value :=
| NaN
| Str (s : string)
| Lst (l : list string).

Definition Series := list value.

(** A table: the length of its row index and its named columns, in
    insertion order. *)
Record DataFrame := mkDataFrame {
  index : nat;
  columns : list (string * Series)
}.

(** [pd.DataFrame(data)] for a list of such dictionaries: one object column
    per key; no rows and no columns for the empty list. *)
Definition from_records (data : list RawJobRecord) : DataFrame :=
  match data with
  | [] => {| index := 0; columns := [] |}
  | _ =>
      {| index := List.length data;
         columns :=
           [("title", map (fun r => Str (title r)) data);
            ("company", map (fun r => Str (company r)) data);
            ("location", map (fun r => Str (location r)) data);
            ("salary", map (fun r => Str (salary r)) data);
            ("skills", map (fun r => Str (skills r)) data)] |}
  end.

(** [len(df)] *)
Definition len (df : DataFrame) : nat := index df.

(** [df.empty]: no rows or no columns. *)
Definition empty (df : DataFrame) : bool :=
  (index df =? 0)%nat ||
  match columns df with
  | [] => true
  | _ => false
  end.

Fixpoint lookup (name : string) (cols : list (string * Series))
  : option Series :=
  match cols with
  | [] => None
  | (n, c) :: cols' => if n =? name then Some c else lookup name cols'
  end.

(** [name in df.columns] *)
Definition has_column (name : string) (df : DataFrame) : bool :=
  match lookup name (columns df) with
  | Some _ => true
  | None => false
  end.

(** [df[name]] *)
Definition getitem (df : DataFrame) (name : string) : result Series :=
  match lookup name (columns df) with
  | Some c => Ok c
  | None => Raise (KeyError name)
  end.

Fixpoint assign (name : string) (c : Series) (cols : list (string * Series))
  : list (string * Series) :=
  match cols with
  | [] => [(name, c)]
  | (n, c0) :: cols' =>
      if n =? name then (n, c) :: cols' else (n, c0) :: assign name c cols'
  end.

(** [df[name] = c] *)
Definition setitem (df : DataFrame) (name : string) (c : Series)
  : DataFrame :=
  {| index := index df; columns := assign name c (columns df) |}.

Definition isna (v : value) : bool :=
  match v with
  | NaN => true
  | _ => false
  end.

(** [s.fillna(fill)] *)
Definition fillna (fill : string) (s : Series) : Series :=
  map (fun v => if isna v then Str fill else v) s.

(** [s.str.title()]: a cell that is not a string becomes missing. *)
Definition str_title (s : Series) : Series :=
  map (fun v => match v with
                | Str x => Str (PyStr.title x)
                | _ => NaN
                end) s.

(** [s.apply(f)] *)
Definition apply (f : value -> result value) (s : Series) : result Series :=
  mapM f s.

(** [s.notna()] *)
Definition notna (s : Series) : list bool :=
  map (fun v => negb (isna v)) s.

(** [.sum()] of a boolean series *)
Definition sum (bs : list bool) : nat :=
  List.length (filter (fun b => b) bs).

Fixpoint hashable (s : Series) : result (list string) :=
  match s with
  | [] => Ok []
  | NaN :: s' => hashable s'
  | Str x :: s' => xs <- hashable s' ;; Ok (x :: xs)
  | Lst _ :: _ => Raise TypeError
  end.

(** [s.nunique()]: the number of distinct values, missing ones left out. *)
Definition nunique (s : Series) : result nat :=
  xs <- hashable s ;; Ok (List.length (nodup string_dec xs)).

End Pandas.

(* ================================================================== *)
(** ** collections.Counter *)

Module Counter.

(** Keys in first-insertion order with their counts. *)
Definition t := list (string * nat).

Fixpoint incr (c : t) (x : string) : t :=
  match c with
  | [] => [(x, 1)]
  | (y, n) :: c' => if y =? x then (y, S n) :: c' else (y, n) :: incr c' x
  end.

(** [Counter(xs)] *)
Definition of_list (xs : list string) : t := fold_left incr xs [].

(** [c[x]]: zero for a key that was never counted. *)
Fixpoint get (c : t) (x : string) : nat :=
  match c with
  | [] => 0
  | (y, n) :: c' => if y =? x then n else get c' x
  end.

End Counter.

(* ================================================================== *)
(** ** The Collector *)

Module JobScraper.

Record t := mk {
  base_url : string;
  delay : nat;
  jobs_data : list RawJobRecord
}.

Definition __init__ (base_url : string) (delay : nat) : t :=
  {| base_url := base_url; delay := delay; jobs_data := [] |}.

(** The class [\W], on ASCII text. *)
Definition nonword (c : ascii) : bool := negb (PyStr.isword c).

(** [\s+] *)
Definition whitespace_run : Re.regex := Re.Plus PyStr.isspace.

(** [^\W+|\W+$] *)
Definition company_edges : Re.regex :=
  Re.Alt (Re.Cat Re.Bol (Re.Plus nonword)) (Re.Cat (Re.Plus nonword) Re.Eol).

(** [[^\w\s,.-]], on ASCII text *)
Definition location_junk : Re.regex :=
  Re.Cls (fun c => negb (PyStr.isword c || PyStr.isspace c ||
                         (c =? ",")%char || (c =? ".")%char ||
                         (c =? "-")%char)).

(** The class [[\d,]], on ASCII text. *)
Definition digit_or_comma (c : ascii) : bool :=
  PyStr.isdigit c || (c =? ",")%char.

(** [[\d,]+(?:\.\d+)?(?:\s*(?:lakh|LPA|per annum|PA))?], on ASCII text *)
Definition salary_pattern : Re.regex :=
  Re.Cat (Re.Plus digit_or_comma)
    (Re.Cat
       (Re.Opt (Re.Cat (Re.Cls (fun c => (c =? ".")%char))
                       (Re.Plus PyStr.isdigit)))
       (Re.Opt (Re.Cat (Re.Star PyStr.isspace)
                  (Re.Alt (Re.Lit "lakh")
                     (Re.Alt (Re.Lit "LPA")
                        (Re.Alt (Re.Lit "per annum") (Re.Lit "PA"))))))).

Definition truthy (s : string) : bool := negb (s =? "").

Definition _clean_job_data (job_data : RawJobRecord) : RawJobRecord :=
  let title' :=
    if truthy (title job_data)
    then PyStr.strip (Re.sub whitespace_run " " (title job_data))
    else title job_data in
  let company' :=
    if truthy (company job_data)
    then Re.sub company_edges ""
           (PyStr.strip (Re.sub whitespace_run " " (company job_data)))
    else company job_data in
  let location' :=
    if truthy (location job_data)
    then Re.sub location_junk ""
           (PyStr.strip (Re.sub whitespace_run " " (location job_data)))
    else location job_data in
  let salary' :=
    if truthy (salary job_data)
    then match Re.search salary_pattern (salary job_data) with
         | Some salary_match => salary_match
         | None => salary job_data
         end
    else salary job_data in
  {| title := title'; company := company'; location := location';
     salary := salary'; skills := skills job_data |}.

(** A job element is given by the five texts [_safe_extract_text] returns
    for it, so [_extract_job_data] is the cleaning of those texts. *)
Definition _extract_job_data (job_element : RawJobRecord) : RawJobRecord :=
  _clean_job_data job_element.

(** [job_elements] are the elements the selectors located on the page. *)
Definition _extract_job_listings (job_elements : list RawJobRecord)
  : list RawJobRecord :=
  fold_left
    (fun jobs job_element =>
       let job_data := _extract_job_data job_element in
       if truthy (title job_data) then (jobs ++ [job_data])%list else jobs)
    job_elements [].

Definition page_url (self : t) (search_query : string) (page : nat)
  : string :=
  base_url self ++ "/search?q=" ++ PyStr.replace " " "+" search_query
    ++ "&page=" ++ PyStr.of_nat page.

Section Scraping.

(** The portal: the request for page [page] either raises (a transport
    error from the request or its status check, or another exception)
    or yields the job elements of the page. *)
Variable fetch : nat -> result (list RawJobRecord).

(** The body of the [try] block. *)
Definition scrape_page (self : t) (page : nat) : result t :=
  job_elements <- fetch page ;;
  let job_listings := _extract_job_listings job_elements in
  Ok {| base_url := base_url self; delay := delay self;
        jobs_data := (jobs_data self ++ job_listings)%list |}.

(** One iteration of the loop, on the scraper and the log of requested
    URLs: both handlers [continue] with the scraper as it was. *)
Definition scrape_step (search_query : string) (st : t * list string)
           (page : nat) : t * list string :=
  let (self, requested) := st in
  let requested' := (requested ++ [page_url self search_query page])%list in
  match scrape_page self page with
  | Ok self' => (self', requested')
  | Raise RequestException => (self, requested')
  | Raise _ => (self, requested')
  end.

(** [scrape_jobs]: the scraper after the run and the URLs it requested;
    the value returned is [jobs_data] of that scraper. *)
Definition scrape_jobs (self : t) (search_query : string) (num_pages : nat)
  : t * list string :=
  fold_left (scrape_step search_query) (seq 1 num_pages) (self, []).

End Scraping.

End JobScraper.

(* ================================================================== *)
(** ** Locating elements and their texts *)

Module Extraction.

(** A job element as field extraction sees it: what [select_one] does for a
    selector.  It raises, finds nothing, or finds an element, which is given
    by its text ([get_text(strip=True)]); an element that is found is truthy
    whatever its text. *)
Definition Element := string -> result (option string).

Fixpoint _safe_extract_text (element : Element) (selectors : list string)
  : string :=
  match selectors with
  | [] => ""
  | selector :: selectors' =>
      match element selector with
      | Ok (Some text) => text
      | Ok None => _safe_extract_text element selectors'
      | Raise _ => _safe_extract_text element selectors'
      end
  end.

Definition title_selectors : list string :=
  ["h2"; "h3"; ".title"; ".job-title"; "[data-title]"].
Definition company_selectors : list string :=
  [".company"; ".company-name"; ".employer"; "[data-company]"].
Definition location_selectors : list string :=
  [".location"; ".job-location"; ".city"; "[data-location]"].
Definition salary_selectors : list string :=
  [".salary"; ".pay"; ".compensation"; "[data-salary]"].
Definition skills_selectors : list string :=
  [".skills"; ".requirements"; ".tags"; ".job-description"].

(** The dictionary [_extract_job_data] fills before it cleans it. *)
Definition element_texts (job_element : Element) : RawJobRecord :=
  {| title := _safe_extract_text job_element title_selectors;
     company := _safe_extract_text job_element company_selectors;
     location := _safe_extract_text job_element location_selectors;
     salary := _safe_extract_text job_element salary_selectors;
     skills := _safe_extract_text job_element skills_selectors |}.

(** A parsed page: what [select] returns for a selector, and the elements
    of the generic search ([div] or [article] whose class matches
    [job|card|listing]). *)
Record Soup := mkSoup {
  select : string -> list Element;
  find_all_generic : list Element
}.

Definition job_selectors : list string :=
  [".job-listing"; ".job-card"; ".job-item"; ".search-result";
   "[data-job-id]"].

(** The loop over [job_selectors]: it stops at the first selection that is
    not empty. *)
Fixpoint first_selection (soup : Soup) (selectors : list string)
  : list Element :=
  match selectors with
  | [] => []
  | selector :: selectors' =>
      match select soup selector with
      | [] => first_selection soup selectors'
      | job_elements => job_elements
      end
  end.

Definition locate_job_elements (soup : Soup) : list Element :=
  match first_selection soup job_selectors with
  | [] => find_all_generic soup
  | job_elements => job_elements
  end.

(** [_extract_job_listings] on a parsed page. *)
Definition page_listings (soup : Soup) : list RawJobRecord :=
  JobScraper._extract_job_listings
    (map element_texts (locate_job_elements soup)).

End Extraction.

(* ================================================================== *)
(** ** The Analyzer *)

Module JobAnalyzer.

Import Pandas.

Record t := mk {
  jobs_data : list RawJobRecord;
  df : DataFrame
}.

Definition not_comma (c : ascii) : bool := negb (c =? ",")%char.

(** [^([^,]+)] and [(\w+(?:\s+\w+)?)]; in both, group 1 is the whole
    match. *)
Definition city_patterns : list Re.regex :=
  [ Re.Cat Re.Bol (Re.Plus not_comma);
    Re.Cat (Re.Plus PyStr.isword)
           (Re.Opt (Re.Cat (Re.Plus PyStr.isspace) (Re.Plus PyStr.isword))) ].

Fixpoint first_match (patterns : list Re.regex) (s : string)
  : option string :=
  match patterns with
  | [] => None
  | pattern :: patterns' =>
      match Re.search pattern s with
      | Some m => Some m
      | None => first_match patterns' s
      end
  end.

Definition extract_city_str (location : string) : string :=
  if (location =? "") || (location =? "Unknown") then "Unknown"
  else match first_match city_patterns (PyStr.strip location) with
       | Some m => PyStr.strip m
       | None => location
       end.

(** [_extract_city]: a missing value is truthy and has no [strip]; an
    empty list is falsy. *)
Definition _extract_city (location : value) : result value :=
  match location with
  | Str s => Ok (Str (extract_city_str s))
  | Lst [] => Ok (Str "Unknown")
  | Lst (_ :: _) => Raise AttributeError
  | NaN => Raise AttributeError
  end.

Definition skill_keywords : list string :=
  [ "python"; "r"; "sql"; "excel"; "tableau"; "power bi"; "powerbi";
    "pandas"; "numpy"; "matplotlib"; "seaborn"; "plotly";
    "machine learning"; "data visualization"; "statistics";
    "business intelligence"; "etl"; "data mining"; "analytics";
    "jupyter"; "git"; "hadoop"; "spark"; "aws"; "azure";
    "mysql"; "postgresql"; "mongodb"; "looker"; "qlik" ].

Definition extract_skills_str (skills_text : string) : list string :=
  if skills_text =? "" then []
  else
    let skills_lower := PyStr.lower skills_text in
    fold_left
      (fun found_skills skill =>
         if PyStr.contains skill skills_lower
         then (found_skills ++ [PyStr.title skill])%list
         else found_skills)
      skill_keywords [].

Definition _extract_skills (skills_text : value) : result value :=
  match skills_text with
  | Str s => Ok (Lst (extract_skills_str s))
  | Lst [] => Ok (Lst [])
  | Lst (_ :: _) => Raise AttributeError
  | NaN => Raise AttributeError
  end.

Definition _preprocess_data (df : DataFrame) : result DataFrame :=
  if empty df then Ok df
  else
    df <- (if has_column "location" df
           then
             c <- getitem df "location" ;;
             let df := setitem df "location" (fillna "Unknown" c) in
             c <- getitem df "location" ;;
             let df := setitem df "location" (str_title c) in
             c <- getitem df "location" ;;
             city <- apply _extract_city c ;;
             Ok (setitem df "city" city)
           else Ok df) ;;
    df <- (if has_column "company" df
           then
             c <- getitem df "company" ;;
             Ok (setitem df "company" (fillna "Unknown" c))
           else Ok df) ;;
    if has_column "skills" df
    then
      c <- getitem df "skills" ;;
      extracted <- apply _extract_skills c ;;
      Ok (setitem df "extracted_skills" extracted)
    else Ok df.

Definition __init__ (jobs_data : list RawJobRecord) : result t :=
  df <- _preprocess_data (from_records jobs_data) ;;
  Ok {| jobs_data := jobs_data; df := df |}.

Record Summary := mkSummary {
  total_jobs : nat;
  unique_companies : nat;
  unique_locations : nat;
  jobs_with_salary : nat
}.

Definition generate_summary (self : t) : result Summary :=
  companies <- (if has_column "company" (df self)
                then c <- getitem (df self) "company" ;; nunique c
                else Ok 0) ;;
  locations <- (if has_column "location" (df self)
                then c <- getitem (df self) "location" ;; nunique c
                else Ok 0) ;;
  with_salary <- (if has_column "salary" (df self)
                  then c <- getitem (df self) "salary" ;; Ok (sum (notna c))
                  else Ok 0) ;;
  Ok {| total_jobs := len (df self);
        unique_companies := companies;
        unique_locations := locations;
        jobs_with_salary := with_salary |}.

(** [get_top_skills]: the counter it returns. *)
Definition get_top_skills (self : t) : result Counter.t :=
  if negb (has_column "extracted_skills" (df self))
  then Ok (Counter.of_list [])
  else
    c <- getitem (df self) "extracted_skills" ;;
    let all_skills :=
      fold_left
        (fun all_skills skills_list =>
           match skills_list with
           | Lst l => (all_skills ++ l)%list
           | _ => all_skills
           end)
        c [] in
    Ok (Counter.of_list all_skills).

End JobAnalyzer.

(* ================================================================== *)
(** ** Descriptions and sample inputs *)

(** The columns of the table built from a non-empty list of records. *)
Definition normalized_columns (jobs : list RawJobRecord)
  : list (string * Pandas.Series) :=
  [("title", map (fun r => Pandas.Str (title r)) jobs);
   ("company", map (fun r => Pandas.Str (company r)) jobs);
   ("location", map (fun r => Pandas.Str (PyStr.title (location r))) jobs);
   ("salary", map (fun r => Pandas.Str (salary r)) jobs);
   ("skills", map (fun r => Pandas.Str (skills r)) jobs);
   ("city",
    map (fun r => Pandas.Str
                    (JobAnalyzer.extract_city_str (PyStr.title (location r))))
        jobs);
   ("extracted_skills",
    map (fun r => Pandas.Lst (JobAnalyzer.extract_skills_str (skills r)))
        jobs)].

(** The count the specification describes: records whose salary is a
    non-empty string. *)
Definition records_with_salary (jobs : list RawJobRecord) : nat :=
  List.length (filter (fun r => negb (salary r =? "")) jobs).

(** The text before the first comma (all of it when there is none). *)
Fixpoint before_comma (s : string) : string :=
  match s with
  | "" => ""
  | String c s' => if (c =? ",")%char then "" else String c (before_comma s')
  end.

(** For a text that begins with a word character: its first word, extended
    by the whitespace and the word that follow it when there are both. *)
Definition one_or_two_words (s : string) : string :=
  let w1 := PyStr.take_while PyStr.isword s in
  let rest := PyStr.drop_while PyStr.isword s in
  let gap := PyStr.take_while PyStr.isspace rest in
  let w2 := PyStr.take_while PyStr.isword (PyStr.drop_while PyStr.isspace rest) in
  if Re.is_empty gap || Re.is_empty w2 then w1 else w1 ++ gap ++ w2.

(** The first one or two words that occur in a text. *)
Fixpoint first_words (s : string) : option string :=
  match s with
  | "" => None
  | String c s' =>
      if PyStr.isword c then Some (one_or_two_words s) else first_words s'
  end.

(** The city of a location, as the program derives it: "Unknown" for an
    empty or unknown location; otherwise, on the stripped location, the
    stripped text before the first comma, or the first words when the
    stripped location begins with a comma; a location of whitespace only, or
    of commas and other non-word characters only, is kept as it is. *)
Definition city_by_design (location : string) : string :=
  if (location =? "") || (location =? "Unknown") then "Unknown"
  else
    match PyStr.strip location with
    | "" => location
    | String c _ as stripped =>
        if (c =? ",")%char
        then match first_words stripped with
             | Some words => words
             | None => location
             end
        else PyStr.strip (before_comma stripped)
    end.

Definition nonspace (c : ascii) : bool := negb (PyStr.isspace c).

(** The first one or two whitespace-delimited tokens of a text. *)
Definition first_tokens (s : string) : string :=
  let s := PyStr.lstrip s in
  let t1 := PyStr.take_while nonspace s in
  let rest := PyStr.drop_while nonspace s in
  let gap := PyStr.take_while PyStr.isspace rest in
  let t2 := PyStr.take_while nonspace (PyStr.drop_while PyStr.isspace rest) in
  if Re.is_empty t2 then t1 else t1 ++ gap ++ t2.

(** The city of a location, in the words of the specification: the text
    before the first comma, or, without a comma, the first one or two
    whitespace-delimited tokens. *)
Definition claimed_city (location : string) : string :=
  if PyStr.contains "," location then before_comma location
  else first_tokens location.

(** What one page contributes to a run: its listings, or nothing when its
    request raises. *)
Definition page_records (fetch : nat -> result (list RawJobRecord))
           (page : nat) : list RawJobRecord :=
  match fetch page with
  | Ok job_elements => JobScraper._extract_job_listings job_elements
  | Raise _ => []
  end.

Definition job_without_salary : RawJobRecord :=
  {| title := "Data Analyst"; company := "Acme"; location := "Pune";
     salary := ""; skills := "sql" |}.

Definition job_without_location : RawJobRecord :=
  {| title := "Data Analyst"; company := "Acme"; location := "";
     salary := "5 LPA"; skills := "sql" |}.

Definition two_jobs : list RawJobRecord :=
  [ {| title := "Junior Data Analyst"; company := "Analytics Solutions";
       location := "Mumbai, Maharashtra"; salary := "4-6 LPA";
       skills := "SQL, Excel, data analysis, reporting" |};
    {| title := "Data Analyst Intern"; company := "StartupXYZ";
       location := "Bangalore, Karnataka"; salary := "2-3 LPA";
       skills := "" |} ].

Definition job_with_range : RawJobRecord :=
  {| title := "Data Analyst - Business Intelligence";
     company := "TechCorp India"; location := "Bangalore, Karnataka";
     salary := "6-8 LPA"; skills := "Python, SQL, Tableau" |}.

Definition job_in_new_delhi : RawJobRecord :=
  {| title := "Data Analyst"; company := "Acme";
     location := "New Delhi India"; salary := "5 LPA"; skills := "sql" |}.

(** A portal whose second page fails with a transport error. *)
Definition flaky_portal (page : nat) : result (list RawJobRecord) :=
  match page with
  | 1 => Ok [job_with_range]
  | 2 => Raise RequestException
  | _ => Ok [job_in_new_delhi]
  end.

(** Some character of the text is a word character. *)
Fixpoint has_word (s : string) : bool :=
  match s with
  | "" => false
  | String c s' => PyStr.isword c || has_word s'
  end.

(** The text has no whitespace other than single spaces between other
    characters: [after_space] tells whether the character before is a
    space (or the text starts here). *)
Fixpoint single_spaced_from (after_space : bool) (s : string) : bool :=
  match s with
  | "" => negb after_space
  | String c s' =>
      if PyStr.isspace c
      then (c =? " ")%char && negb after_space && single_spaced_from true s'
      else single_spaced_from false s'
  end.

(** Empty, or free of whitespace at both ends and of whitespace other than
    single spaces inside. *)
Definition single_spaced (s : string) : bool :=
  match s with
  | "" => true
  | _ => single_spaced_from true s
  end.

(** The characters that location cleaning keeps. *)
Definition location_char (c : ascii) : bool :=
  PyStr.isword c || PyStr.isspace c ||
  (c =? ",")%char || (c =? ".")%char || (c =? "-")%char.

(** The last character of a text satisfies [p]. *)
Fixpoint ends_with (p : ascii -> bool) (s : string) : bool :=
  match s with
  | "" => false
  | String c "" => p c
  | String _ s' => ends_with p s'
  end.

Definition starts_with (p : ascii -> bool) (s : string) : bool :=
  match s with
  | "" => false
  | String c _ => p c
  end.

Definition no_space (c : ascii) : bool := negb (c =? " ")%char.

(** An element on which only the second title selector finds something, and
    that with an empty text. *)
Definition element_with_empty_h3 : Extraction.Element :=
  fun selector =>
    if selector =? "h2" then Raise OtherException
    else if selector =? "h3" then Ok (Some "")
    else Ok (Some "Data Analyst").

(** The selector raises or finds no element. *)
Definition finds_nothing (element : Extraction.Element) (selector : string)
  : bool :=
  match element selector with
  | Ok (Some _) => false
  | _ => true
  end.

(** Every whitespace character of the text is a space that does not follow
    another space; [after_space] tells whether the character before is
    one. *)
Fixpoint spaced_from (after_space : bool) (s : string) : bool :=
  match s with
  | "" => true
  | String c s' =>
      if PyStr.isspace c
      then (c =? " ")%char && negb after_space && spaced_from true s'
      else spaced_from false s'
  end.

(** The text without its trailing characters that satisfy [p]. *)
Fixpoint trim_end (p : ascii -> bool) (s : string) : string :=
  match s with
  | "" => ""
  | String c s' => if Re.all_in p s then "" else String c (trim_end p s')
  end.

Definition no_digit_or_comma (c : ascii) : bool :=
  negb (JobScraper.digit_or_comma c).

(** [s.isascii()] *)
Definition is_ascii (s : string) : bool :=
  Re.all_in (fun c => (PyStr.code c <? 128)%nat) s.

(** A period with the digits that follow it, when the text begins with a
    period and a digit; and the text after that. *)
Definition decimal_part (s : string) : string :=
  match s with
  | "" => ""
  | String c digits =>
      if (c =? ".")%char && starts_with PyStr.isdigit digits
      then String c (PyStr.take_while PyStr.isdigit digits)
      else ""
  end.

Definition after_decimal (s : string) : string :=
  match s with
  | "" => ""
  | String c digits =>
      if (c =? ".")%char && starts_with PyStr.isdigit digits
      then PyStr.drop_while PyStr.isdigit digits
      else s
  end.

Definition suffix_words : list string := ["lakh"; "LPA"; "per annum"; "PA"].

(** The whitespace at the front of the text with the suffix word that
    follows it, when one does. *)
Definition suffix_part (s : string) : string :=
  match find (fun word => prefix word (PyStr.drop_while PyStr.isspace s))
             suffix_words with
  | Some word => PyStr.take_while PyStr.isspace s ++ word
  | None => ""
  end.

(** The numeric token at the front of a text that begins with a digit or a
    comma: the run of digits and commas, a decimal part when one follows,
    and a suffix when one follows that. *)
Definition salary_token (s : string) : string :=
  let rest := PyStr.drop_while JobScraper.digit_or_comma s in
  PyStr.take_while JobScraper.digit_or_comma s
  ++ decimal_part rest ++ suffix_part (after_decimal rest).

(** The salary text after cleaning, in the words of the specification: the
    numeric token that starts at the first digit or comma of the text, or
    the text itself when it has neither. *)
Definition first_salary_token (raw : string) : string :=
  match PyStr.drop_while no_digit_or_comma raw with
  | "" => raw
  | from_first => salary_token from_first
  end.

(** A character that can begin a suffix: whitespace, or the first letter
    of a suffix word. *)
Definition suffix_head (c : ascii) : bool :=
  PyStr.isspace c || (c =? "l")%char || (c =? "L")%char ||
  (c =? "p")%char || (c =? "P")%char.

Definition job_with_decimal_salary : RawJobRecord :=
  {| title := "Senior Data Analyst"; company := " .Acme,  Inc.  ";
     location := "Pune (MH), India!"; salary := "Rs. 12.5 LPA approx";
     skills := "Python, R, SQL" |}.

(* ================================================================== *)
(** * Properties *)

(** ** Strings *)

Lemma append_nil_r (s : string) : s ++ "" = s.
Proof. induction s as [|c s IH]; simpl; [reflexivity | now rewrite IH]. Qed.

Lemma append_assoc (a b c : string) : (a ++ b) ++ c = a ++ (b ++ c).
Proof. induction a as [|x a IH]; simpl; [reflexivity | now rewrite IH]. Qed.

Lemma length_append (a b : string) :
  String.length (a ++ b) = String.length a + String.length b.
Proof. induction a as [|x a IH]; simpl; [reflexivity | now rewrite IH]. Qed.

Lemma prefix_iff (a s : string) :
  prefix a s = true <-> exists b, s = a ++ b.
Proof.
  revert s; induction a as [|x a IH]; intros s.
  - split; [intros _; now exists s | intros _; destruct s; reflexivity].
  - destruct s as [|y s]; simpl.
    + split; [discriminate | intros [b Hb]; discriminate].
    + destruct (ascii_dec x y) as [->|Hxy].
      * rewrite IH. split; intros [b Hb]; exists b.
        -- now rewrite Hb.
        -- now inversion Hb.
      * split; [discriminate | intros [b Hb]; inversion Hb; congruence].
Qed.

Lemma contains_cons (sub : string) (c : ascii) (s : string) :
  PyStr.contains sub (String c s)
  = prefix sub (String c s) || PyStr.contains sub s.
Proof. reflexivity. Qed.

Lemma contains_nil (sub : string) : PyStr.contains sub "" = prefix sub "".
Proof. unfold PyStr.contains. apply orb_false_r. Qed.

(** [sub in s] holds exactly when [sub] occurs in [s] as a substring. *)
Lemma contains_iff (sub s : string) :
  PyStr.contains sub s = true <-> exists pre post, s = pre ++ sub ++ post.
Proof.
  induction s as [|c s IH].
  - rewrite contains_nil, prefix_iff. split.
    + intros [b Hb]. now exists "", b.
    + intros [pre [post H]].
      destruct pre; simpl in H; [now exists post | discriminate].
  - rewrite contains_cons, orb_true_iff, prefix_iff, IH. split.
    + intros [[b Hb] | [pre [post H]]].
      * now exists "", b.
      * exists (String c pre), post. simpl. now rewrite H.
    + intros [pre [post H]]. destruct pre as [|x pre]; simpl in H.
      * left. now exists post.
      * right. inversion H. now exists pre, post.
Qed.

Lemma lower_append (a b : string) :
  PyStr.lower (a ++ b) = PyStr.lower a ++ PyStr.lower b.
Proof. induction a as [|x a IH]; simpl; [reflexivity | now rewrite IH]. Qed.

(** ** The error monad and series *)

Lemma mapM_map_ok {A B C} (f : B -> result C) (g : A -> B) (h : A -> C)
      (l : list A) :
  (forall a, f (g a) = Ok (h a)) -> mapM f (map g l) = Ok (map h l).
Proof.
  intros H. induction l as [|a l IH]; simpl; [reflexivity|].
  now rewrite H, IH.
Qed.

Lemma fillna_map_Str {A} (fill : string) (g : A -> string) (l : list A) :
  Pandas.fillna fill (map (fun a => Pandas.Str (g a)) l)
  = map (fun a => Pandas.Str (g a)) l.
Proof. unfold Pandas.fillna. rewrite map_map. reflexivity. Qed.

Lemma str_title_map_Str {A} (g : A -> string) (l : list A) :
  Pandas.str_title (map (fun a => Pandas.Str (g a)) l)
  = map (fun a => Pandas.Str (PyStr.title (g a))) l.
Proof. unfold Pandas.str_title. rewrite map_map. reflexivity. Qed.

(** ** The normalized table *)

Lemma preprocess_five_columns (n : nat) (t c l s k : Pandas.Series) :
  n <> 0 ->
  JobAnalyzer._preprocess_data
    {| Pandas.index := n;
       Pandas.columns := [("title", t); ("company", c); ("location", l);
                          ("salary", s); ("skills", k)] |}
  = (city <- Pandas.apply JobAnalyzer._extract_city
               (Pandas.str_title (Pandas.fillna "Unknown" l)) ;;
     extracted <- Pandas.apply JobAnalyzer._extract_skills k ;;
     Ok {| Pandas.index := n;
           Pandas.columns :=
             [("title", t); ("company", Pandas.fillna "Unknown" c);
              ("location", Pandas.str_title (Pandas.fillna "Unknown" l));
              ("salary", s); ("skills", k); ("city", city);
              ("extracted_skills", extracted)] |}).
Proof.
  intros Hn. unfold JobAnalyzer._preprocess_data, Pandas.empty.
  destruct n as [|n]; [contradiction|]. cbn.
  destruct (Pandas.apply JobAnalyzer._extract_city _); cbn; [|reflexivity].
  destruct (Pandas.apply JobAnalyzer._extract_skills _); reflexivity.
Qed.

(** Construction never raises; the table of the empty list has no column,
    and otherwise the table has the seven columns of
    [normalized_columns]. *)
Lemma init_empty :
  JobAnalyzer.__init__ []
  = Ok {| JobAnalyzer.jobs_data := [];
          JobAnalyzer.df := {| Pandas.index := 0; Pandas.columns := [] |} |}.
Proof. reflexivity. Qed.

Lemma init_nonempty (jobs : list RawJobRecord) :
  jobs <> [] ->
  JobAnalyzer.__init__ jobs
  = Ok {| JobAnalyzer.jobs_data := jobs;
          JobAnalyzer.df := {| Pandas.index := List.length jobs;
                               Pandas.columns := normalized_columns jobs |} |}.
Proof.
  intros Hne. unfold JobAnalyzer.__init__.
  assert (Hdf : Pandas.from_records jobs
                = {| Pandas.index := List.length jobs;
                     Pandas.columns :=
                       [("title", map (fun r => Pandas.Str (title r)) jobs);
                        ("company", map (fun r => Pandas.Str (company r)) jobs);
                        ("location", map (fun r => Pandas.Str (location r)) jobs);
                        ("salary", map (fun r => Pandas.Str (salary r)) jobs);
                        ("skills", map (fun r => Pandas.Str (skills r)) jobs)] |}).
  { destruct jobs; [contradiction | reflexivity]. }
  rewrite Hdf, preprocess_five_columns.
  2:{ destruct jobs; [contradiction | discriminate]. }
  rewrite !fillna_map_Str, str_title_map_Str.
  unfold Pandas.apply.
  rewrite (mapM_map_ok JobAnalyzer._extract_city _
             (fun r => Pandas.Str (JobAnalyzer.extract_city_str
                                     (PyStr.title (location r)))))
    by reflexivity.
  rewrite (mapM_map_ok JobAnalyzer._extract_skills _
             (fun r => Pandas.Lst (JobAnalyzer.extract_skills_str (skills r))))
    by reflexivity.
  reflexivity.
Qed.

Lemma normalized_columns_length (jobs : list RawJobRecord) name column :
  In (name, column) (normalized_columns jobs) ->
  List.length column = List.length jobs.
Proof.
  unfold normalized_columns. simpl.
  intros H.
  repeat (destruct H as [H|H];
          [inversion H; subst; apply length_map|]).
  contradiction.
Qed.

(** C5: for every input sequence of raw records, construction succeeds and
    the normalized table has exactly as many rows as there are records: its
    row index and every one of its columns have the length of the input. *)
Theorem preprocessing_keeps_row_count (jobs : list RawJobRecord) :
  exists a,
    JobAnalyzer.__init__ jobs = Ok a /\
    Pandas.len (JobAnalyzer.df a) = List.length jobs /\
    forall name column,
      In (name, column) (Pandas.columns (JobAnalyzer.df a)) ->
      List.length column = List.length jobs.
Proof.
  destruct jobs as [|r jobs].
  - eexists. split; [apply init_empty|]. split; [reflexivity|].
    intros name column [].
  - eexists. split; [apply init_nonempty; discriminate|].
    split; [reflexivity|].
    intros name column. apply normalized_columns_length.
Qed.

(** C8: the Analyzer built from the empty sequence has a table with zero
    rows, and [generate_summary] returns, without raising, a summary whose
    four counts are zero. *)
Theorem empty_input_summary :
  exists a,
    JobAnalyzer.__init__ [] = Ok a /\
    Pandas.len (JobAnalyzer.df a) = 0 /\
    JobAnalyzer.generate_summary a
    = Ok {| JobAnalyzer.total_jobs := 0;
            JobAnalyzer.unique_companies := 0;
            JobAnalyzer.unique_locations := 0;
            JobAnalyzer.jobs_with_salary := 0 |}.
Proof.
  eexists. split; [apply init_empty|]. split; reflexivity.
Qed.

(** ** Summary statistics *)

Lemma hashable_map_Str {A} (g : A -> string) (l : list A) :
  Pandas.hashable (map (fun a => Pandas.Str (g a)) l) = Ok (map g l).
Proof.
  induction l as [|a l IH]; simpl; [reflexivity | now rewrite IH].
Qed.

Lemma sum_notna_map_Str {A} (g : A -> string) (l : list A) :
  Pandas.sum (Pandas.notna (map (fun a => Pandas.Str (g a)) l))
  = List.length l.
Proof.
  unfold Pandas.sum, Pandas.notna. rewrite map_map.
  induction l as [|a l IH]; simpl; [reflexivity | now f_equal].
Qed.

(** What [generate_summary] computes on a non-empty input: no cell of the
    salary column is missing, so every record is counted. *)
Lemma generate_summary_nonempty (jobs : list RawJobRecord) :
  jobs <> [] ->
  exists a,
    JobAnalyzer.__init__ jobs = Ok a /\
    JobAnalyzer.generate_summary a
    = Ok {| JobAnalyzer.total_jobs := List.length jobs;
            JobAnalyzer.unique_companies :=
              List.length (nodup string_dec (map company jobs));
            JobAnalyzer.unique_locations :=
              List.length
                (nodup string_dec
                       (map (fun r => PyStr.title (location r)) jobs));
            JobAnalyzer.jobs_with_salary := List.length jobs |}.
Proof.
  intros Hne. eexists. split; [apply init_nonempty, Hne|].
  unfold JobAnalyzer.generate_summary, normalized_columns. cbn.
  unfold Pandas.nunique.
  rewrite (hashable_map_Str company).
  rewrite (hashable_map_Str (fun r => PyStr.title (location r))).
  cbn. rewrite (sum_notna_map_Str salary). reflexivity.
Qed.

(** C1: on the single record [job_without_salary], whose salary is the empty
    string, [generate_summary] reports one job with salary, whereas no
    record has a non-empty salary. *)
Theorem summary_counts_empty_salary :
  (a <- JobAnalyzer.__init__ [job_without_salary] ;;
   JobAnalyzer.generate_summary a)
  = Ok {| JobAnalyzer.total_jobs := 1;
          JobAnalyzer.unique_companies := 1;
          JobAnalyzer.unique_locations := 1;
          JobAnalyzer.jobs_with_salary := 1 |}
  /\ records_with_salary [job_without_salary] = 0.
Proof. split; reflexivity. Qed.

(** C3: on the single record [job_without_location], whose location is the
    empty string, preprocessing leaves the location cell empty (only the
    derived city becomes "Unknown"). *)
Theorem empty_location_stays_empty :
  (a <- JobAnalyzer.__init__ [job_without_location] ;;
   Pandas.getitem (JobAnalyzer.df a) "location")
  = Ok [Pandas.Str ""]
  /\ (a <- JobAnalyzer.__init__ [job_without_location] ;;
      Pandas.getitem (JobAnalyzer.df a) "city")
     = Ok [Pandas.Str "Unknown"].
Proof. split; reflexivity. Qed.

(** ** Skill extraction *)

Lemma fold_append_matches {A B} (P : A -> bool) (T : A -> B) (l : list A)
      (acc : list B) :
  fold_left (fun found x => if P x then (found ++ [T x])%list else found) l acc
  = (acc ++ map T (filter P l))%list.
Proof.
  revert acc. induction l as [|x l IH]; intros acc; simpl.
  - now rewrite app_nil_r.
  - rewrite IH. destruct (P x); simpl; [|reflexivity].
    now rewrite <- app_assoc.
Qed.

(** The keywords of a text: the loop of [_extract_skills] keeps the keywords
    that occur in the lower-cased text, in the order of the keyword list. *)
Lemma extract_skills_str_filter (skills_text : string) :
  JobAnalyzer.extract_skills_str skills_text
  = map PyStr.title
        (filter (fun k => PyStr.contains k (PyStr.lower skills_text))
                JobAnalyzer.skill_keywords).
Proof.
  unfold JobAnalyzer.extract_skills_str.
  destruct (String.eqb_spec skills_text "") as [->|Hne].
  - reflexivity.
  - cbv zeta.
    rewrite (fold_append_matches
               (fun k => PyStr.contains k (PyStr.lower skills_text))
               PyStr.title).
    apply app_nil_l.
Qed.

Lemma extracted_skills_cell (jobs : list RawJobRecord) i r :
  nth_error jobs i = Some r ->
  exists a column,
    JobAnalyzer.__init__ jobs = Ok a /\
    Pandas.getitem (JobAnalyzer.df a) "extracted_skills" = Ok column /\
    nth_error column i
    = Some (Pandas.Lst (JobAnalyzer.extract_skills_str (skills r))).
Proof.
  intros Hi.
  assert (Hne : jobs <> []) by (intros ->; destruct i; discriminate).
  eexists. eexists. split; [apply init_nonempty, Hne|].
  split; [reflexivity|].
  rewrite nth_error_map, Hi. reflexivity.
Qed.

(** C7: for every record of the input, the cell of the derived
    [extracted_skills] column is the list of the title-cased keywords that
    the lower-cased skills text contains, in keyword-list order; a keyword is
    contained exactly when it occurs as a substring; and an empty skills
    text gives the empty list. *)
Theorem extracted_skills_exact (jobs : list RawJobRecord) i r :
  nth_error jobs i = Some r ->
  exists a column,
    JobAnalyzer.__init__ jobs = Ok a /\
    Pandas.getitem (JobAnalyzer.df a) "extracted_skills" = Ok column /\
    nth_error column i
    = Some (Pandas.Lst
              (map PyStr.title
                   (filter (fun k => PyStr.contains k (PyStr.lower (skills r)))
                           JobAnalyzer.skill_keywords))) /\
    (forall k, PyStr.contains k (PyStr.lower (skills r)) = true <->
               exists pre post, PyStr.lower (skills r) = pre ++ k ++ post) /\
    (skills r = "" -> nth_error column i = Some (Pandas.Lst [])).
Proof.
  intros Hi.
  destruct (extracted_skills_cell jobs i r Hi) as (a & column & Ha & Hc & Hn).
  exists a, column. repeat split; try assumption.
  - now rewrite Hn, extract_skills_str_filter.
  - apply contains_iff.
  - apply contains_iff.
  - intros Hs. rewrite Hn, Hs. reflexivity.
Qed.

Lemma extracted_skills_exact_witness :
  exists a column,
    JobAnalyzer.__init__ two_jobs = Ok a /\
    Pandas.getitem (JobAnalyzer.df a) "extracted_skills" = Ok column /\
    nth_error column 0 = Some (Pandas.Lst ["R"; "Sql"; "Excel"]).
Proof.
  destruct (extracted_skills_exact two_jobs 0 _ eq_refl)
    as (a & column & Ha & Hc & Hn & _).
  exists a, column. repeat split; assumption.
Defined.

(** A text that contains the letter [r] still contains it once
    lower-cased. *)
Lemma contains_r_lower (s : string) :
  PyStr.contains "r" s = true -> PyStr.contains "r" (PyStr.lower s) = true.
Proof.
  rewrite !contains_iff. intros (pre & post & ->).
  exists (PyStr.lower pre), (PyStr.lower post).
  now rewrite !lower_append.
Qed.

(** C10: for every record whose skills text contains the letter [r] (as
    written, or once lower-cased), the derived [extracted_skills] cell
    contains "R": the one-character keyword matches by plain substring
    containment. *)
Theorem letter_r_yields_R (jobs : list RawJobRecord) i r :
  nth_error jobs i = Some r ->
  PyStr.contains "r" (skills r) = true \/
  PyStr.contains "r" (PyStr.lower (skills r)) = true ->
  exists a column found_skills,
    JobAnalyzer.__init__ jobs = Ok a /\
    Pandas.getitem (JobAnalyzer.df a) "extracted_skills" = Ok column /\
    nth_error column i = Some (Pandas.Lst found_skills) /\
    In "R" found_skills.
Proof.
  intros Hi Hr.
  assert (Hl : PyStr.contains "r" (PyStr.lower (skills r)) = true)
    by (destruct Hr as [Hr|Hr]; [apply contains_r_lower|]; exact Hr).
  destruct (extracted_skills_cell jobs i r Hi) as (a & column & Ha & Hc & Hn).
  exists a, column, (JobAnalyzer.extract_skills_str (skills r)).
  repeat split; try assumption.
  rewrite extract_skills_str_filter.
  change "R" with (PyStr.title "r").
  apply in_map, filter_In. split; [|exact Hl].
  unfold JobAnalyzer.skill_keywords. simpl. tauto.
Qed.

(** The text of the first record of [two_jobs] never mentions the R
    language; "reporting" is enough. *)
Lemma letter_r_yields_R_witness :
  exists a column found_skills,
    JobAnalyzer.__init__ two_jobs = Ok a /\
    Pandas.getitem (JobAnalyzer.df a) "extracted_skills" = Ok column /\
    nth_error column 0 = Some (Pandas.Lst found_skills) /\
    In "R" found_skills.
Proof.
  apply (letter_r_yields_R two_jobs 0
           {| title := "Junior Data Analyst"; company := "Analytics Solutions";
              location := "Mumbai, Maharashtra"; salary := "4-6 LPA";
              skills := "SQL, Excel, data analysis, reporting" |}).
  - reflexivity.
  - left. reflexivity.
Defined.

(** ** Skill counts *)

Lemma counter_get_incr (c : Counter.t) (y x : string) :
  Counter.get (Counter.incr c y) x
  = Counter.get c x + (if string_dec y x then 1 else 0).
Proof.
  induction c as [|[z n] c IH]; simpl.
  - destruct (String.eqb_spec y x), (string_dec y x); try congruence; lia.
  - destruct (String.eqb_spec z y) as [->|Hzy]; simpl.
    + destruct (String.eqb_spec y x), (string_dec y x); try congruence; lia.
    + destruct (String.eqb_spec z x) as [->|Hzx].
      * destruct (string_dec y x); [congruence | lia].
      * exact IH.
Qed.

Lemma counter_get_fold (xs : list string) (c : Counter.t) (x : string) :
  Counter.get (fold_left Counter.incr xs c) x
  = Counter.get c x + count_occ string_dec xs x.
Proof.
  revert c. induction xs as [|y xs IH]; intros c; simpl; [lia|].
  rewrite IH, counter_get_incr. destruct (string_dec y x); lia.
Qed.

(** [Counter(xs)[x]] is the number of occurrences of [x] in [xs]. *)
Lemma counter_get_of_list (xs : list string) (x : string) :
  Counter.get (Counter.of_list xs) x = count_occ string_dec xs x.
Proof. unfold Counter.of_list. now rewrite counter_get_fold. Qed.

Lemma flatten_lists {A} (f : A -> list string) (l : list A)
      (acc : list string) :
  fold_left
    (fun all_skills skills_list =>
       match skills_list with
       | Pandas.Lst x => (all_skills ++ x)%list
       | _ => all_skills
       end)
    (map (fun a => Pandas.Lst (f a)) l) acc
  = (acc ++ flat_map f l)%list.
Proof.
  revert acc. induction l as [|a l IH]; intros acc; simpl.
  - now rewrite app_nil_r.
  - now rewrite IH, app_assoc.
Qed.

Lemma count_occ_flat_map {A} (f : A -> list string) (l : list A) x :
  count_occ string_dec (flat_map f l) x
  = list_sum (map (fun a => count_occ string_dec (f a) x) l).
Proof.
  induction l as [|a l IH]; simpl; [reflexivity|].
  now rewrite count_occ_app, IH.
Qed.

Lemma count_occ_map_filter {A} (T : A -> string) (P : A -> bool)
      (l : list A) (k : A) :
  NoDup (map T l) -> In k l ->
  count_occ string_dec (map T (filter P l)) (T k) = if P k then 1 else 0.
Proof.
  induction l as [|a l IH]; simpl; [contradiction|].
  intros Hnd Hin. inversion Hnd as [|? ? Hnotin Hnd']; subst.
  assert (Hrest : ~ In (T a) (map T (filter P l))).
  { intros H. apply Hnotin. apply in_map_iff in H as (b & Hb & Hbin).
    apply filter_In in Hbin as [Hbin _]. apply in_map_iff. now exists b. }
  destruct Hin as [->|Hin].
  - destruct (P k); simpl.
    + destruct (string_dec (T k) (T k)); [|congruence].
      f_equal. now apply count_occ_not_In.
    + now apply count_occ_not_In.
  - assert (Hneq : T a <> T k).
    { intros Heq. apply Hnotin. rewrite Heq. now apply in_map. }
    destruct (P a); simpl.
    + destruct (string_dec (T a) (T k)); [contradiction|]. now apply IH.
    + now apply IH.
Qed.

Lemma list_sum_indicator {A} (P : A -> bool) (l : list A) :
  list_sum (map (fun a => if P a then 1 else 0) l)
  = List.length (filter P l).
Proof.
  induction l as [|a l IH]; simpl; [reflexivity|].
  destruct (P a); simpl; now rewrite IH.
Qed.

(** Title-casing keeps the keywords apart. *)
Lemma titled_keywords_NoDup :
  NoDup (map PyStr.title JobAnalyzer.skill_keywords).
Proof.
  apply (NoDup_count_occ' string_dec).
  intros x Hx. simpl in Hx.
  repeat (destruct Hx as [<-|Hx]; [vm_compute; reflexivity|]).
  contradiction.
Qed.

Lemma count_occ_extract_skills (skills_text k : string) :
  In k JobAnalyzer.skill_keywords ->
  count_occ string_dec (JobAnalyzer.extract_skills_str skills_text)
            (PyStr.title k)
  = if PyStr.contains k (PyStr.lower skills_text) then 1 else 0.
Proof.
  intros Hk. rewrite extract_skills_str_filter.
  apply (count_occ_map_filter PyStr.title
           (fun k => PyStr.contains k (PyStr.lower skills_text)));
    [apply titled_keywords_NoDup | exact Hk].
Qed.

(** C4: for every input sequence and every keyword [k] of the keyword list,
    the count that the counter returned by [get_top_skills] holds for [k]
    (under its title-cased name, the form in which skills are recorded)
    is the number of raw records whose lower-cased skills text contains [k]
    as a substring. *)
Theorem top_skills_count (jobs : list RawJobRecord) (k : string) :
  In k JobAnalyzer.skill_keywords ->
  exists a skill_counts,
    JobAnalyzer.__init__ jobs = Ok a /\
    JobAnalyzer.get_top_skills a = Ok skill_counts /\
    Counter.get skill_counts (PyStr.title k)
    = List.length
        (filter (fun r => PyStr.contains k (PyStr.lower (skills r))) jobs) /\
    forall r, PyStr.contains k (PyStr.lower (skills r)) = true <->
              exists pre post, PyStr.lower (skills r) = pre ++ k ++ post.
Proof.
  intros Hk. destruct jobs as [|r0 jobs].
  - eexists. eexists. split; [apply init_empty|].
    split; [reflexivity|]. split; [reflexivity|].
    intros r. apply contains_iff.
  - set (data := r0 :: jobs).
    eexists.
    exists (Counter.of_list
              (flat_map (fun r => JobAnalyzer.extract_skills_str (skills r))
                        data)).
    split; [apply init_nonempty; discriminate|].
    split.
    + unfold JobAnalyzer.get_top_skills, normalized_columns.
      cbn [JobAnalyzer.df Pandas.has_column Pandas.columns Pandas.lookup
           Pandas.getitem String.eqb Ascii.eqb Bool.eqb negb bind].
      rewrite (flatten_lists
                 (fun r => JobAnalyzer.extract_skills_str (skills r))).
      reflexivity.
    + split; [|intros r; apply contains_iff].
      rewrite counter_get_of_list, count_occ_flat_map.
      rewrite <- (list_sum_indicator
                    (fun r => PyStr.contains k (PyStr.lower (skills r)))).
      f_equal. apply map_ext. intros r.
      now apply count_occ_extract_skills.
Qed.

Lemma top_skills_count_witness :
  In "sql" JobAnalyzer.skill_keywords /\
  exists a skill_counts,
    JobAnalyzer.__init__ two_jobs = Ok a /\
    JobAnalyzer.get_top_skills a = Ok skill_counts /\
    Counter.get skill_counts "Sql" = 1.
Proof.
  assert (Hk : In "sql" JobAnalyzer.skill_keywords) by (simpl; tauto).
  split; [exact Hk|].
  destruct (top_skills_count two_jobs "sql" Hk)
    as (a & skill_counts & Ha & Hc & Hn & _).
  exists a, skill_counts. repeat split; assumption.
Defined.

(** ** The regular-expression search *)

Lemma substring_front (m rest : string) :
  substring 0 (String.length m) (m ++ rest) = m.
Proof.
  induction m as [|c m IH]; simpl.
  - destruct rest; reflexivity.
  - now rewrite IH.
Qed.

Lemma star_greedy_sound p s k x :
  Re.star_greedy p s k = Some x ->
  exists m rest, s = m ++ rest /\ Re.all_in p m = true /\ k rest = Some x.
Proof.
  induction s as [|c s IH]; simpl.
  - intros H. now exists "", "".
  - destruct (p c) eqn:Hc.
    + destruct (Re.star_greedy p s k) as [y|] eqn:Hs.
      * intros Hx. injection Hx as ->.
        destruct (IH eq_refl) as (m & rest & -> & Hm & Hk).
        exists (String c m), rest. simpl. now rewrite Hc, Hm.
      * intros H. now exists "", (String c s).
    + intros H. now exists "", (String c s).
Qed.

Lemma star_greedy_complete p m rest k :
  Re.all_in p m = true -> k rest <> None ->
  Re.star_greedy p (m ++ rest) k <> None.
Proof.
  intros Hm Hk. induction m as [|c m IH]; simpl.
  - destruct rest as [|c rest]; simpl; [exact Hk|].
    destruct (p c); [|exact Hk].
    destruct (Re.star_greedy p rest k); [discriminate | exact Hk].
  - simpl in Hm. apply andb_true_iff in Hm as [Hc Hm]. rewrite Hc.
    specialize (IH Hm).
    destruct (Re.star_greedy p (m ++ rest) k); [discriminate | contradiction].
Qed.

Lemma drop_prefix_iff lit s s' :
  Re.drop_prefix lit s = Some s' <-> s = lit ++ s'.
Proof.
  revert s. induction lit as [|a lit IH]; intros s; simpl.
  - split; [intros H; now injection H | intros ->; reflexivity].
  - destruct s as [|b s].
    + split; discriminate.
    + destruct (Ascii.eqb_spec a b) as [->|Hab].
      * rewrite IH. split; [intros ->; reflexivity | intros H; now injection H].
      * split; [discriminate | intros H; injection H; congruence].
Qed.

(** Position bookkeeping: a remainder of the subject is at its start only
    when nothing has been consumed. *)
Lemma at_start_after (n : nat) (m rest : string) :
  String.length (m ++ rest) <= n ->
  (String.length rest =? n)%nat
  = (String.length (m ++ rest) =? n)%nat && Re.is_empty m.
Proof.
  rewrite length_append. intros Hle. destruct m as [|c m]; simpl.
  - now rewrite andb_true_r.
  - rewrite andb_false_r. apply Nat.eqb_neq. simpl in Hle. lia.
Qed.

(** Whatever the engine returns is a match of the pattern. *)
Lemma run_sound r : forall n s k x,
  String.length s <= n ->
  Re.run n r s k = Some x ->
  exists m rest,
    s = m ++ rest /\
    Re.matches (String.length s =? n)%nat r m rest /\
    k rest = Some x.
Proof.
  induction r as [| |p|lit|p|p|r1 IH1 r2 IH2|r1 IH1 r2 IH2|r1 IH1];
    intros n s k x Hle; simpl.
  - destruct (String.length s =? n)%nat eqn:Hn; [|discriminate].
    intros Hk. exists "", s. repeat split; [constructor | exact Hk].
  - destruct ((s =? "") || (s =? String "010" "")) eqn:He; [|discriminate].
    intros Hk. exists "", s. repeat split; [|exact Hk].
    constructor. apply orb_true_iff in He as [He|He];
      apply String.eqb_eq in He; tauto.
  - destruct s as [|c s]; [discriminate|].
    destruct (p c) eqn:Hc; [|discriminate].
    intros Hk. exists (String c ""), s. repeat split; [|exact Hk].
    now constructor.
  - destruct (Re.drop_prefix lit s) as [s'|] eqn:Hd; [|discriminate].
    apply drop_prefix_iff in Hd. intros Hk.
    exists lit, s'. repeat split; [exact Hd | constructor | exact Hk].
  - destruct s as [|c s]; [discriminate|].
    destruct (p c) eqn:Hc; [|discriminate].
    intros Hs. apply star_greedy_sound in Hs as (m & rest & -> & Hm & Hk).
    exists (String c m), rest. repeat split; [|exact Hk].
    constructor; [discriminate | simpl; now rewrite Hc, Hm].
  - intros Hs. apply star_greedy_sound in Hs as (m & rest & -> & Hm & Hk).
    exists m, rest. repeat split; [now constructor | exact Hk].
  - intros H1.
    apply IH1 in H1 as (m1 & rest1 & -> & Hm1 & H2); [|exact Hle].
    assert (Hle1 : String.length rest1 <= n)
      by (rewrite length_append in Hle; lia).
    apply IH2 in H2 as (m2 & rest & -> & Hm2 & Hk); [|exact Hle1].
    exists (m1 ++ m2), rest. repeat split.
    + now rewrite append_assoc.
    + apply Re.M_Cat; [exact Hm1|].
      now rewrite <- at_start_after.
    + exact Hk.
  - destruct (Re.run n r1 s k) as [y|] eqn:H1.
    + intros Hx. injection Hx as ->.
      apply IH1 in H1 as (m & rest & -> & Hm & Hk); [|exact Hle].
      exists m, rest. repeat split; [now apply Re.M_AltL | exact Hk].
    + intros H2. apply IH2 in H2 as (m & rest & -> & Hm & Hk); [|exact Hle].
      exists m, rest. repeat split; [now apply Re.M_AltR | exact Hk].
  - destruct (Re.run n r1 s k) as [y|] eqn:H1.
    + intros Hx. injection Hx as ->.
      apply IH1 in H1 as (m & rest & -> & Hm & Hk); [|exact Hle].
      exists m, rest. repeat split; [now apply Re.M_OptSome | exact Hk].
    + intros Hk. exists "", s. repeat split; [constructor | exact Hk].
Qed.

(** Whenever the pattern has a match that the continuation accepts, the
    engine succeeds. *)
Lemma run_complete b r m rest :
  Re.matches b r m rest ->
  forall n k,
    String.length (m ++ rest) <= n ->
    b = (String.length (m ++ rest) =? n)%nat ->
    k rest <> None ->
    Re.run n r (m ++ rest) k <> None.
Proof.
  induction 1 as [rest|b rest He|b p c rest Hc|b lit rest|b p m rest Hne Hm
                  |b p m rest Hm|b r1 r2 m1 m2 rest H1 IH1 H2 IH2
                  |b r1 r2 m rest H1 IH1|b r1 r2 m rest H2 IH2
                  |b r rest|b r m rest H1 IH1];
    intros n k Hle Hb Hk; simpl.
  - simpl in Hb. now rewrite <- Hb.
  - destruct He as [->| ->]; simpl; exact Hk.
  - now rewrite Hc.
  - assert (Hd : Re.drop_prefix lit (lit ++ rest) = Some rest)
      by now apply drop_prefix_iff.
    now rewrite Hd.
  - destruct m as [|c m]; [contradiction|]. simpl in *.
    apply andb_true_iff in Hm as [Hc Hm]. rewrite Hc.
    now apply star_greedy_complete.
  - now apply star_greedy_complete.
  - rewrite append_assoc in *. apply IH1; [exact Hle | exact Hb|].
    assert (Hle2 : String.length (m2 ++ rest) <= n)
      by (rewrite length_append in Hle; lia).
    apply IH2; [exact Hle2 | | exact Hk].
    rewrite Hb. symmetry. now apply at_start_after.
  - specialize (IH1 n k Hle Hb Hk).
    destruct (Re.run n r1 (m ++ rest) k); [discriminate | contradiction].
  - specialize (IH2 n k Hle Hb Hk).
    destruct (Re.run n r1 (m ++ rest) k); [discriminate | exact IH2].
  - destruct (Re.run n r rest k); [discriminate | exact Hk].
  - specialize (IH1 n k Hle Hb Hk).
    destruct (Re.run n r (m ++ rest) k); [discriminate | contradiction].
Qed.

Lemma match_here_sound n r s m :
  String.length s <= n ->
  Re.match_here n r s = Some m ->
  exists rest, s = m ++ rest /\ Re.matches (String.length s =? n)%nat r m rest.
Proof.
  unfold Re.match_here. intros Hle.
  destruct (Re.run n r s Some) as [rest|] eqn:Hr; [|discriminate].
  apply run_sound in Hr as (m' & rest' & -> & Hm & Hk); [|exact Hle].
  injection Hk as ->.
  rewrite length_append at 1. rewrite Nat.add_sub, substring_front.
  intros Hx. injection Hx as <-.
  exists rest. split; [reflexivity | exact Hm].
Qed.

Lemma match_here_complete n r m rest :
  String.length (m ++ rest) <= n ->
  Re.matches (String.length (m ++ rest) =? n)%nat r m rest ->
  Re.match_here n r (m ++ rest) <> None.
Proof.
  intros Hle Hm. unfold Re.match_here.
  assert (H : Re.run n r (m ++ rest) Some <> None)
    by (eapply run_complete; [exact Hm | exact Hle | reflexivity | discriminate]).
  destruct (Re.run n r (m ++ rest) Some); [discriminate | contradiction].
Qed.

Lemma at_start_iff (pre s : string) :
  (String.length s =? String.length (pre ++ s))%nat = Re.is_empty pre.
Proof.
  rewrite length_append. destruct pre as [|c pre]; simpl.
  - apply Nat.eqb_refl.
  - apply Nat.eqb_neq. lia.
Qed.

Lemma is_empty_append_char (pre : string) (c : ascii) (t : string) :
  Re.is_empty ((pre ++ String c "") ++ t) = Re.is_empty (pre ++ String c t).
Proof. now rewrite append_assoc. Qed.

(** The scan from left to right returns a match at the first position that
    has one, and nothing only when no position has one. *)
Lemma search_from_spec r : forall s pre,
  match Re.search_from (String.length (pre ++ s)) r s with
  | Some m =>
      exists pre2 post,
        s = pre2 ++ m ++ post /\
        Re.matches (Re.is_empty (pre ++ pre2)) r m post /\
        forall pre' m' post',
          s = pre' ++ m' ++ post' ->
          Re.matches (Re.is_empty (pre ++ pre')) r m' post' ->
          String.length pre2 <= String.length pre'
  | None =>
      forall pre' m' post',
        s = pre' ++ m' ++ post' ->
        ~ Re.matches (Re.is_empty (pre ++ pre')) r m' post'
  end.
Proof.
  induction s as [|c s IH]; intros pre.
  - simpl Re.search_from.
    destruct (Re.match_here _ r "") as [m|] eqn:Hh.
    + apply match_here_sound in Hh as (rest & Hs & Hm);
        [|rewrite length_append; simpl; lia].
      rewrite at_start_iff in Hm.
      exists "", rest. rewrite append_nil_r. repeat split; try assumption.
      intros; simpl; lia.
    + intros pre' m' post' Hs Hm.
      destruct pre'; [|discriminate]. simpl in Hs.
      rewrite append_nil_r in Hm. rewrite <- (at_start_iff pre "") in Hm.
      rewrite Hs in Hm at 1 2.
      apply match_here_complete in Hm.
      * rewrite <- Hs in Hm. contradiction.
      * rewrite <- Hs. rewrite length_append. simpl. lia.
  - simpl Re.search_from.
    destruct (Re.match_here _ r (String c s)) as [m|] eqn:Hh.
    + apply match_here_sound in Hh as (rest & Hs & Hm);
        [|rewrite length_append; simpl; lia].
      rewrite at_start_iff in Hm.
      exists "", rest. rewrite append_nil_r. repeat split; try assumption.
      intros; simpl; lia.
    + assert (Hhead : forall m' post',
                 String c s = m' ++ post' ->
                 ~ Re.matches (Re.is_empty pre) r m' post').
      { intros m' post' Hs Hm.
        rewrite <- (at_start_iff pre (String c s)) in Hm.
        rewrite Hs in Hm at 1 2.
        apply match_here_complete in Hm.
        - rewrite <- Hs in Hm. contradiction.
        - rewrite <- Hs. rewrite length_append. simpl. lia. }
      specialize (IH (pre ++ String c "")).
      rewrite append_assoc in IH. simpl in IH.
      destruct (Re.search_from _ r s) as [m|].
      * destruct IH as (pre2 & post & Hs & Hm & Hmin).
        exists (String c pre2), post. repeat split.
        -- simpl. now rewrite Hs.
        -- now rewrite is_empty_append_char in Hm.
        -- intros pre' m' post' Hs' Hm'. destruct pre' as [|c' pre'].
           ++ rewrite append_nil_r in Hm'. exfalso.
              now apply (Hhead m' post').
           ++ simpl in Hs'. injection Hs' as <- Hs'. simpl.
              apply le_n_S. apply (Hmin pre' m' post' Hs').
              now rewrite is_empty_append_char.
      * intros pre' m' post' Hs' Hm'. destruct pre' as [|c' pre'].
        -- rewrite append_nil_r in Hm'. now apply (Hhead m' post').
        -- simpl in Hs'. injection Hs' as <- Hs'.
           apply (IH pre' m' post' Hs').
           now rewrite is_empty_append_char.
Qed.

(** [re.search] returns a leftmost match of the pattern. *)
Lemma search_some r s m :
  Re.search r s = Some m ->
  exists pre,
    Re.matches_in r s pre m /\
    forall pre' m', Re.matches_in r s pre' m' ->
                    String.length pre <= String.length pre'.
Proof.
  unfold Re.search. intros Hs.
  pose proof (search_from_spec r s "") as H. simpl in H. rewrite Hs in H.
  destruct H as (pre & post & Heq & Hm & Hmin).
  exists pre. split.
  - exists post. now split.
  - intros pre' m' (post' & Heq' & Hm'). now apply (Hmin pre' m' post').
Qed.

(** [re.search] returns nothing only when no substring matches. *)
Lemma search_none r s :
  Re.search r s = None -> forall pre m, ~ Re.matches_in r s pre m.
Proof.
  unfold Re.search. intros Hs.
  pose proof (search_from_spec r s "") as H. simpl in H. rewrite Hs in H.
  intros pre m (post & Heq & Hm). now apply (H pre m post).
Qed.

(** ** The scraping loop *)

Section ScrapingFacts.

Variable fetch : nat -> result (list RawJobRecord).
Variable search_query : string.

Lemma scrape_step_spec (self : JobScraper.t) (requested : list string)
      (page : nat) :
  JobScraper.scrape_step fetch search_query (self, requested) page
  = ({| JobScraper.base_url := JobScraper.base_url self;
        JobScraper.delay := JobScraper.delay self;
        JobScraper.jobs_data :=
          (JobScraper.jobs_data self ++ page_records fetch page)%list |},
     (requested ++ [JobScraper.page_url self search_query page])%list).
Proof.
  unfold JobScraper.scrape_step, JobScraper.scrape_page, page_records.
  destruct self as [url d jobs]. simpl.
  destruct (fetch page) as [job_elements|e]; simpl.
  - reflexivity.
  - rewrite app_nil_r. destruct e; reflexivity.
Qed.

(** The loop visits every page it is given, whatever the outcomes, and
    appends what each page contributes. *)
Lemma scrape_loop_spec (pages : list nat) :
  forall (self : JobScraper.t) (requested : list string),
    fold_left (JobScraper.scrape_step fetch search_query) pages
              (self, requested)
    = ({| JobScraper.base_url := JobScraper.base_url self;
          JobScraper.delay := JobScraper.delay self;
          JobScraper.jobs_data :=
            (JobScraper.jobs_data self
             ++ flat_map (page_records fetch) pages)%list |},
       (requested
        ++ map (JobScraper.page_url self search_query) pages)%list).
Proof.
  induction pages as [|page pages IH]; intros self requested.
  - simpl. rewrite !app_nil_r. now destruct self.
  - cbn [fold_left]. rewrite scrape_step_spec, IH. cbn.
    now rewrite <- !app_assoc.
Qed.

Lemma pages_around (p num_pages : nat) :
  1 <= p <= num_pages ->
  seq 1 num_pages = (seq 1 (p - 1) ++ p :: seq (p + 1) (num_pages - p))%list.
Proof.
  intros [H1 Hn].
  replace num_pages with ((p - 1) + S (num_pages - p)) at 1 by lia.
  rewrite seq_app. cbn [seq].
  replace (1 + (p - 1)) with p by lia.
  replace (S p) with (p + 1) by lia. reflexivity.
Qed.

End ScrapingFacts.

(** C9: whenever the request for some page [p] of the run raises a
    transport error, the run still ends normally: every page from 1 to
    [num_pages] is requested, in order (so also those after [p]); and the
    records of the result are those the scraper held when it reached [p]
    (its own, then those of pages 1 to [p - 1]) followed by those of the
    pages after [p]: page [p] contributes none and nothing collected
    earlier is lost. *)
Theorem transport_error_skips_page
        (fetch : nat -> result (list RawJobRecord)) (self : JobScraper.t)
        (search_query : string) (num_pages p : nat) :
  1 <= p <= num_pages ->
  fetch p = Raise RequestException ->
  let before := JobScraper.scrape_jobs fetch self search_query (p - 1) in
  let final := JobScraper.scrape_jobs fetch self search_query num_pages in
  snd final
  = map (JobScraper.page_url self search_query) (seq 1 num_pages)
  /\ JobScraper.jobs_data (fst before)
     = (JobScraper.jobs_data self
        ++ flat_map (page_records fetch) (seq 1 (p - 1)))%list
  /\ JobScraper.jobs_data (fst final)
     = (JobScraper.jobs_data (fst before)
        ++ flat_map (page_records fetch) (seq (p + 1) (num_pages - p)))%list.
Proof.
  intros Hp Hfail before final. subst before final.
  unfold JobScraper.scrape_jobs. rewrite !scrape_loop_spec.
  cbn [fst snd JobScraper.jobs_data].
  split; [reflexivity|]. split; [reflexivity|].
  rewrite (pages_around p num_pages Hp), flat_map_app. cbn [flat_map].
  assert (Hnone : page_records fetch p = [])
    by (unfold page_records; now rewrite Hfail).
  rewrite Hnone. cbn [app]. now rewrite app_assoc.
Qed.

Lemma transport_error_skips_page_witness :
  let final :=
    JobScraper.scrape_jobs flaky_portal
      (JobScraper.__init__ "https://jobs.example" 2) "data analyst" 3 in
  snd final
  = ["https://jobs.example/search?q=data+analyst&page=1";
     "https://jobs.example/search?q=data+analyst&page=2";
     "https://jobs.example/search?q=data+analyst&page=3"]
  /\ map title (JobScraper.jobs_data (fst final))
     = ["Data Analyst - Business Intelligence"; "Data Analyst"].
Proof.
  pose proof (transport_error_skips_page flaky_portal
                (JobScraper.__init__ "https://jobs.example" 2)
                "data analyst" 3 2 (conj (le_S 1 1 (le_n 1)) (le_S 2 2 (le_n 2)))
                eq_refl) as (Hreq & _ & Hdata).
  split.
  - rewrite Hreq. reflexivity.
  - rewrite Hdata. reflexivity.
Defined.

(** ** City extraction *)

Lemma take_drop_while p (s : string) :
  PyStr.take_while p s ++ PyStr.drop_while p s = s.
Proof.
  induction s as [|c s IH]; simpl; [reflexivity|].
  destruct (p c); simpl; [now rewrite IH | reflexivity].
Qed.

Lemma all_in_take_while p (s : string) :
  Re.all_in p (PyStr.take_while p s) = true.
Proof.
  induction s as [|c s IH]; simpl; [reflexivity|].
  destruct (p c) eqn:Hc; simpl; [now rewrite Hc | reflexivity].
Qed.

Lemma substring_of_split (s m rest : string) :
  s = m ++ rest ->
  substring 0 (String.length s - String.length rest) s = m.
Proof.
  intros ->. rewrite length_append at 1.
  now rewrite Nat.add_sub, substring_front.
Qed.

Lemma space_not_word (c : ascii) :
  PyStr.isspace c = true -> PyStr.isword c = false.
Proof.
  destruct c as [b0 b1 b2 b3 b4 b5 b6 b7].
  destruct b0, b1, b2, b3, b4, b5, b6, b7; vm_compute; congruence.
Qed.

(** When giving a character back cannot help the rest of the pattern, a
    greedy repetition consumes the longest run. *)
Lemma star_greedy_max p k :
  (forall c t, p c = true ->
               k (PyStr.drop_while p t) = None -> k (String c t) = None) ->
  forall s, Re.star_greedy p s k = k (PyStr.drop_while p s).
Proof.
  intros Hk. induction s as [|c s IH]; simpl; [reflexivity|].
  destruct (p c) eqn:Hc; [|reflexivity].
  rewrite IH. destruct (k (PyStr.drop_while p s)) eqn:Hd; [reflexivity|].
  now apply Hk.
Qed.

Lemma run_plus_last n p (s : string) :
  Re.run n (Re.Plus p) s Some
  = if Re.is_empty (PyStr.take_while p s) then None
    else Some (PyStr.drop_while p s).
Proof.
  destruct s as [|c s]; simpl; [reflexivity|].
  destruct (p c); simpl; [|reflexivity].
  apply star_greedy_max. discriminate.
Qed.

(** [\s+\w+] at the end of a pattern. *)
Lemma run_gap_word n (s : string) :
  Re.run n (Re.Cat (Re.Plus PyStr.isspace) (Re.Plus PyStr.isword)) s Some
  = if Re.is_empty (PyStr.take_while PyStr.isspace s)
       || Re.is_empty (PyStr.take_while PyStr.isword
                                        (PyStr.drop_while PyStr.isspace s))
    then None
    else Some (PyStr.drop_while PyStr.isword
                                (PyStr.drop_while PyStr.isspace s)).
Proof.
  destruct s as [|c s]; [reflexivity|].
  cbn [Re.run PyStr.take_while PyStr.drop_while].
  destruct (PyStr.isspace c) eqn:Hc; [|reflexivity].
  cbn [Re.is_empty orb].
  rewrite star_greedy_max.
  - cbv beta. apply (run_plus_last n).
  - intros c' t Hc' _. cbn [Re.run]. now rewrite (space_not_word c' Hc').
Qed.

Lemma run_cat n r1 r2 (s : string) k :
  Re.run n (Re.Cat r1 r2) s k = Re.run n r1 s (fun s1 => Re.run n r2 s1 k).
Proof. reflexivity. Qed.

Lemma run_plus n p (c : ascii) (s : string) k :
  Re.run n (Re.Plus p) (String c s) k
  = if p c then Re.star_greedy p s k else None.
Proof. reflexivity. Qed.

Lemma run_opt n r (s : string) k :
  Re.run n (Re.Opt r) s k
  = match Re.run n r s k with
    | Some rest => Some rest
    | None => k s
    end.
Proof. reflexivity. Qed.

Lemma run_opt_total n r (s : string) : Re.run n (Re.Opt r) s Some <> None.
Proof. rewrite run_opt. destruct (Re.run n r s Some); discriminate. Qed.

(** The second city pattern, tried at a word character, matches the first
    one or two words. *)
Lemma match_here_words n (c : ascii) (s : string) :
  PyStr.isword c = true ->
  Re.match_here n (nth 1 JobAnalyzer.city_patterns Re.Bol) (String c s)
  = Some (one_or_two_words (String c s)).
Proof.
  intros Hc. unfold Re.match_here. cbn [nth JobAnalyzer.city_patterns].
  rewrite run_cat, run_plus, Hc.
  rewrite star_greedy_max.
  2:{ intros c' t _ H. exfalso. exact (run_opt_total _ _ _ H). }
  rewrite run_opt, run_gap_word. unfold one_or_two_words.
  cbn [PyStr.take_while PyStr.drop_while]. rewrite Hc.
  set (rest := PyStr.drop_while PyStr.isword s).
  set (w1 := String c (PyStr.take_while PyStr.isword s)).
  assert (Hs : String c s = w1 ++ rest)
    by (unfold w1, rest; simpl; now rewrite take_drop_while).
  destruct (Re.is_empty (PyStr.take_while PyStr.isspace rest)
            || Re.is_empty (PyStr.take_while PyStr.isword
                              (PyStr.drop_while PyStr.isspace rest))).
  - f_equal. now apply substring_of_split.
  - f_equal. apply substring_of_split.
    rewrite Hs, !append_assoc. f_equal.
    rewrite take_drop_while. now rewrite take_drop_while.
Qed.

Lemma search_from_words n (s : string) :
  Re.search_from n (nth 1 JobAnalyzer.city_patterns Re.Bol) s = first_words s.
Proof.
  induction s as [|c s IH]; [reflexivity|].
  cbn [Re.search_from first_words].
  destruct (PyStr.isword c) eqn:Hc.
  - now rewrite match_here_words.
  - rewrite <- IH.
    assert (Hnone : Re.match_here n (nth 1 JobAnalyzer.city_patterns Re.Bol)
                                  (String c s) = None).
    { unfold Re.match_here. cbn [nth JobAnalyzer.city_patterns].
      now rewrite run_cat, run_plus, Hc. }
    now rewrite Hnone.
Qed.

Lemma search_from_bol_later n r (s : string) :
  String.length s < n -> Re.search_from n (Re.Cat Re.Bol r) s = None.
Proof.
  induction s as [|c s IH]; intros Hlt.
  - destruct n; [inversion Hlt | reflexivity].
  - cbn [Re.search_from].
    assert (Hnone : Re.match_here n (Re.Cat Re.Bol r) (String c s) = None).
    { unfold Re.match_here. cbn [Re.run].
      assert (Hn : (String.length (String c s) =? n)%nat = false)
        by (apply Nat.eqb_neq; lia).
      now rewrite Hn. }
    rewrite Hnone. apply IH. simpl in Hlt. lia.
Qed.

Lemma before_comma_take_while (s : string) :
  before_comma s = PyStr.take_while JobAnalyzer.not_comma s.
Proof.
  induction s as [|c s IH]; simpl; [reflexivity|].
  unfold JobAnalyzer.not_comma at 1.
  destruct (c =? ",")%char; simpl; [reflexivity | now rewrite IH].
Qed.

(** The first city pattern matches only at the start of the text, and there
    it takes everything before the first comma. *)
Lemma search_before_comma (s : string) :
  Re.search (nth 0 JobAnalyzer.city_patterns Re.Bol) s
  = match s with
    | "" => None
    | String c _ => if (c =? ",")%char then None else Some (before_comma s)
    end.
Proof.
  destruct s as [|c s]; [reflexivity|].
  unfold Re.search. cbn [nth JobAnalyzer.city_patterns Re.search_from].
  unfold Re.match_here at 1. cbn [Re.run].
  rewrite Nat.eqb_refl.
  unfold JobAnalyzer.not_comma at 1.
  destruct (c =? ",")%char eqn:Hc; cbn [negb].
  - apply search_from_bol_later. simpl. lia.
  - rewrite star_greedy_max by discriminate.
    f_equal. apply substring_of_split.
    rewrite before_comma_take_while. cbn [PyStr.take_while].
    unfold JobAnalyzer.not_comma at 1. rewrite Hc. cbn [negb].
    simpl. now rewrite take_drop_while.
Qed.

Lemma rstrip_words (w : string) :
  w <> "" -> Re.all_in PyStr.isword w = true -> PyStr.rstrip w = w.
Proof.
  induction w as [|c w IH]; [contradiction|]. intros _ Hw.
  simpl in Hw. apply andb_true_iff in Hw as [Hc Hw].
  cbn [PyStr.rstrip]. destruct w as [|c' w].
  - simpl. destruct (PyStr.isspace c) eqn:Hs; [|reflexivity].
    apply space_not_word in Hs. congruence.
  - rewrite IH by (discriminate || assumption). reflexivity.
Qed.

Lemma rstrip_app (a w : string) :
  w <> "" -> PyStr.rstrip w = w -> PyStr.rstrip (a ++ w) = a ++ w.
Proof.
  intros Hne Hw. induction a as [|x a IH]; [exact Hw|].
  cbn [append PyStr.rstrip]. rewrite IH.
  destruct (a ++ w) eqn:Haw; [|reflexivity].
  destruct a; simpl in Haw; [contradiction | discriminate].
Qed.

Lemma is_empty_false (s : string) : Re.is_empty s = false -> s <> "".
Proof. destruct s; discriminate. Qed.

(** The one or two words start and end with a word character, so stripping
    leaves them unchanged. *)
Lemma strip_one_or_two_words (c : ascii) (s : string) :
  PyStr.isword c = true ->
  PyStr.strip (one_or_two_words (String c s))
  = one_or_two_words (String c s).
Proof.
  intros Hc. unfold one_or_two_words.
  cbn [PyStr.take_while PyStr.drop_while]. rewrite Hc.
  set (w1 := PyStr.take_while PyStr.isword s).
  set (rest := PyStr.drop_while PyStr.isword s).
  set (gap := PyStr.take_while PyStr.isspace rest).
  set (w2 := PyStr.take_while PyStr.isword (PyStr.drop_while PyStr.isspace rest)).
  assert (Hns : PyStr.isspace c = false).
  { destruct (PyStr.isspace c) eqn:Hs; [|reflexivity].
    apply space_not_word in Hs. congruence. }
  assert (Hw1 : PyStr.rstrip (String c w1) = String c w1).
  { apply rstrip_words; [discriminate|].
    simpl. rewrite Hc. apply all_in_take_while. }
  destruct (Re.is_empty gap || Re.is_empty w2) eqn:He.
  - unfold PyStr.strip. cbn [PyStr.lstrip]. now rewrite Hns.
  - apply orb_false_iff in He as [_ He2]. apply is_empty_false in He2.
    unfold PyStr.strip. cbn [append PyStr.lstrip]. rewrite Hns.
    change (String c (w1 ++ gap ++ w2)) with (String c w1 ++ gap ++ w2).
    rewrite <- append_assoc. apply rstrip_app; [exact He2|].
    apply rstrip_words; [exact He2 | apply all_in_take_while].
Qed.

Lemma strip_first_words (s words : string) :
  first_words s = Some words -> PyStr.strip words = words.
Proof.
  induction s as [|c s IH]; [discriminate|].
  cbn [first_words]. destruct (PyStr.isword c) eqn:Hc; [|exact IH].
  intros H. injection H as <-. now apply strip_one_or_two_words.
Qed.

(** [_extract_city] on a string, pattern by pattern. *)
Lemma extract_city_by_design (location : string) :
  JobAnalyzer.extract_city_str location = city_by_design location.
Proof.
  unfold JobAnalyzer.extract_city_str, city_by_design.
  destruct ((location =? "") || (location =? "Unknown")); [reflexivity|].
  change (JobAnalyzer.first_match JobAnalyzer.city_patterns
                                  (PyStr.strip location))
    with (match Re.search (nth 0 JobAnalyzer.city_patterns Re.Bol)
                          (PyStr.strip location) with
          | Some m => Some m
          | None =>
              match Re.search (nth 1 JobAnalyzer.city_patterns Re.Bol)
                              (PyStr.strip location) with
              | Some m => Some m
              | None => None
              end
          end).
  rewrite search_before_comma. unfold Re.search. rewrite search_from_words.
  destruct (PyStr.strip location) as [|c t]; [reflexivity|].
  destruct (c =? ",")%char; [|reflexivity].
  destruct (first_words (String c t)) as [words|] eqn:Hw; [|reflexivity].
  now apply strip_first_words in Hw.
Qed.

Lemma city_cell (jobs : list RawJobRecord) i r :
  nth_error jobs i = Some r ->
  exists a column,
    JobAnalyzer.__init__ jobs = Ok a /\
    Pandas.getitem (JobAnalyzer.df a) "city" = Ok column /\
    nth_error column i
    = Some (Pandas.Str (JobAnalyzer.extract_city_str
                          (PyStr.title (location r)))).
Proof.
  intros Hi.
  assert (Hne : jobs <> []) by (intros ->; destruct i; discriminate).
  eexists. eexists. split; [apply init_nonempty, Hne|].
  split; [reflexivity|].
  rewrite nth_error_map, Hi. reflexivity.
Qed.

(** C2: on the single record [job_in_new_delhi], whose location
    "New Delhi India" has no comma, the derived city is the whole location,
    whereas its first one or two tokens are "New Delhi": the pattern for
    the text before the first comma also matches a text without comma, so
    the pattern for the first one or two words is never tried on it. *)
Lemma city_without_comma_is_whole_location :
  (a <- JobAnalyzer.__init__ [job_in_new_delhi] ;;
   Pandas.getitem (JobAnalyzer.df a) "city")
  = Ok [Pandas.Str "New Delhi India"]
  /\ claimed_city (PyStr.title (location job_in_new_delhi)) = "New Delhi"
  /\ (a <- JobAnalyzer.__init__ [job_in_new_delhi] ;;
      Pandas.getitem (JobAnalyzer.df a) "city")
     <> Ok [Pandas.Str (claimed_city
                          (PyStr.title (location job_in_new_delhi)))].
Proof.
  split; [reflexivity|]. split; [reflexivity|].
  vm_compute. discriminate.
Qed.

(* ================================================================== *)
(** * Further properties *)

(** ** Listings of a page *)

Lemma fold_keep_titled (job_elements : list RawJobRecord)
      (jobs : list RawJobRecord) :
  fold_left
    (fun jobs job_element =>
       let job_data := JobScraper._extract_job_data job_element in
       if JobScraper.truthy (title job_data)
       then (jobs ++ [job_data])%list else jobs)
    job_elements jobs
  = (jobs ++ filter (fun job_data => JobScraper.truthy (title job_data))
                    (map JobScraper._clean_job_data job_elements))%list.
Proof.
  revert jobs. induction job_elements as [|e l IH]; intros jobs.
  - simpl. now rewrite app_nil_r.
  - cbn [fold_left map filter]. rewrite IH.
    unfold JobScraper._extract_job_data. cbv zeta.
    destruct (JobScraper.truthy (title (JobScraper._clean_job_data e)));
      [now rewrite <- app_assoc | reflexivity].
Qed.

(** X1: the listings of a page are the cleaned records of its elements, in
    element order, without those whose cleaned title is empty; so every
    listing has a non-empty title and there are at most as many listings as
    elements. *)
Theorem listings_are_titled_elements (job_elements : list RawJobRecord) :
  JobScraper._extract_job_listings job_elements
  = filter (fun job_data => negb (title job_data =? ""))
           (map JobScraper._clean_job_data job_elements)
  /\ Forall (fun job_data => title job_data <> "")
            (JobScraper._extract_job_listings job_elements)
  /\ List.length (JobScraper._extract_job_listings job_elements)
     <= List.length job_elements.
Proof.
  assert (H : JobScraper._extract_job_listings job_elements
              = filter (fun job_data => negb (title job_data =? ""))
                       (map JobScraper._clean_job_data job_elements)).
  { unfold JobScraper._extract_job_listings.
    now rewrite fold_keep_titled. }
  rewrite H. split; [reflexivity|]. split.
  - apply Forall_forall. intros j Hj. apply filter_In in Hj as [_ Hj].
    intros Heq. rewrite Heq in Hj. discriminate.
  - etransitivity; [apply filter_length_le|]. now rewrite length_map.
Qed.

(** ** Runs of the scraper *)

(** X2: whatever the outcome of each request (a page, a transport error or
    any other exception), a run over [num_pages] pages requests every page
    from 1 to [num_pages] once, in order, appends to the records the scraper
    already holds the listings of the pages that were fetched, in page
    order, and leaves the base URL and the delay as they were. *)
Theorem scrape_jobs_collects_fetched_pages
        (fetch : nat -> result (list RawJobRecord)) (self : JobScraper.t)
        (search_query : string) (num_pages : nat) :
  let final := JobScraper.scrape_jobs fetch self search_query num_pages in
  JobScraper.jobs_data (fst final)
  = (JobScraper.jobs_data self
     ++ flat_map (page_records fetch) (seq 1 num_pages))%list
  /\ snd final
     = map (JobScraper.page_url self search_query) (seq 1 num_pages)
  /\ List.length (snd final) = num_pages
  /\ JobScraper.base_url (fst final) = JobScraper.base_url self
  /\ JobScraper.delay (fst final) = JobScraper.delay self.
Proof.
  cbv zeta. unfold JobScraper.scrape_jobs. rewrite scrape_loop_spec.
  cbn [fst snd JobScraper.jobs_data JobScraper.base_url JobScraper.delay app].
  repeat split. now rewrite length_map, length_seq.
Qed.

(** X3: the records of a scraper persist from one run to the next and are
    never deduplicated: a second run appends its pages after those of the
    first, so running the same query twice against the same portal holds
    every listing twice. *)
Theorem scrape_jobs_accumulates
        (fetch : nat -> result (list RawJobRecord)) (base_url : string)
        (delay : nat) (search_query : string) (num_pages : nat) :
  let fresh := JobScraper.__init__ base_url delay in
  let once := fst (JobScraper.scrape_jobs fetch fresh search_query num_pages) in
  let twice := fst (JobScraper.scrape_jobs fetch once search_query num_pages) in
  JobScraper.jobs_data once = flat_map (page_records fetch) (seq 1 num_pages)
  /\ JobScraper.jobs_data twice
     = (JobScraper.jobs_data once ++ JobScraper.jobs_data once)%list.
Proof.
  cbv zeta. unfold JobScraper.scrape_jobs. rewrite !scrape_loop_spec.
  cbn [fst snd JobScraper.jobs_data JobScraper.__init__ app].
  split; reflexivity.
Qed.

(** ** Summary statistics, in general *)

Lemma nodup_length_le (l : list string) :
  List.length (nodup string_dec l) <= List.length l.
Proof.
  induction l as [|x l IH]; simpl; [lia|].
  destruct (in_dec string_dec x l); simpl; lia.
Qed.

Lemma nodup_nonempty (l : list string) :
  l <> [] -> 1 <= List.length (nodup string_dec l).
Proof.
  destruct l as [|x l]; [contradiction|]. intros _.
  assert (H : In x (nodup string_dec (x :: l)))
    by (apply nodup_In; now left).
  destruct (nodup string_dec (x :: l)); [contradiction | simpl; lia].
Qed.

(** X4: for every input, [generate_summary] succeeds; the total is the
    number of records; every record counts as one with salary information;
    and the numbers of distinct companies and locations are at most the
    total, and at least one when there is a record. *)
Theorem summary_bounds (jobs : list RawJobRecord) :
  exists a summary,
    JobAnalyzer.__init__ jobs = Ok a /\
    JobAnalyzer.generate_summary a = Ok summary /\
    JobAnalyzer.total_jobs summary = List.length jobs /\
    JobAnalyzer.jobs_with_salary summary = JobAnalyzer.total_jobs summary /\
    JobAnalyzer.unique_companies summary <= JobAnalyzer.total_jobs summary /\
    JobAnalyzer.unique_locations summary <= JobAnalyzer.total_jobs summary /\
    (jobs <> [] ->
     1 <= JobAnalyzer.unique_companies summary /\
     1 <= JobAnalyzer.unique_locations summary).
Proof.
  destruct jobs as [|r jobs].
  - eexists. eexists. split; [apply init_empty|]. split; [reflexivity|].
    cbn. repeat split; try lia. all: contradiction.
  - set (data := r :: jobs).
    destruct (generate_summary_nonempty data) as (a & Ha & Hs);
      [discriminate|].
    eexists. eexists. split; [exact Ha|]. split; [exact Hs|].
    cbn [JobAnalyzer.total_jobs JobAnalyzer.jobs_with_salary
         JobAnalyzer.unique_companies JobAnalyzer.unique_locations].
    split; [reflexivity|]. split; [reflexivity|].
    split; [etransitivity; [apply nodup_length_le | now rewrite length_map]|].
    split; [etransitivity; [apply nodup_length_le | now rewrite length_map]|].
    intros _. split; apply nodup_nonempty; discriminate.
Qed.

(** ** Skills of a text *)

Lemma NoDup_map_filter {A B} (T : A -> B) (P : A -> bool) (l : list A) :
  NoDup (map T l) -> NoDup (map T (filter P l)).
Proof.
  induction l as [|a l IH]; simpl; [intros; constructor|].
  intros Hnd. inversion Hnd as [|? ? Hnotin Hnd']; subst.
  destruct (P a); simpl; [|now apply IH].
  constructor; [|now apply IH].
  intros H. apply Hnotin. apply in_map_iff in H as (b & Hb & Hin).
  apply filter_In in Hin as [Hin _]. apply in_map_iff. now exists b.
Qed.

Lemma NoDup_map_injective {A B} (T : A -> B) (l : list A) (a b : A) :
  NoDup (map T l) -> In a l -> In b l -> T a = T b -> a = b.
Proof.
  induction l as [|x l IH]; simpl; [contradiction|].
  intros Hnd Ha Hb Heq. inversion Hnd as [|? ? Hnotin Hnd']; subst.
  destruct Ha as [->|Ha], Hb as [->|Hb].
  - reflexivity.
  - exfalso. apply Hnotin. rewrite Heq. now apply in_map.
  - exfalso. apply Hnotin. rewrite <- Heq. now apply in_map.
  - now apply IH.
Qed.

Lemma skill_found_iff (skills_text k : string) :
  In k JobAnalyzer.skill_keywords ->
  In (PyStr.title k) (JobAnalyzer.extract_skills_str skills_text)
  <-> PyStr.contains k (PyStr.lower skills_text) = true.
Proof.
  intros Hk. rewrite extract_skills_str_filter. split.
  - intros H. apply in_map_iff in H as (k' & Hk' & Hin).
    apply filter_In in Hin as [Hin Hc].
    assert (k' = k)
      by (eapply NoDup_map_injective;
          [apply titled_keywords_NoDup | | | ]; eassumption).
    now subst.
  - intros Hc. apply in_map, filter_In. now split.
Qed.

Lemma extracted_skills_are_distinct_keywords (skills_text : string) :
  NoDup (JobAnalyzer.extract_skills_str skills_text) /\
  incl (JobAnalyzer.extract_skills_str skills_text)
       (map PyStr.title JobAnalyzer.skill_keywords).
Proof.
  rewrite extract_skills_str_filter. split.
  - apply NoDup_map_filter, titled_keywords_NoDup.
  - intros x Hx. apply in_map_iff in Hx as (k & <- & Hin).
    apply filter_In in Hin as [Hin _]. now apply in_map.
Qed.

(** X5: the skills extracted from any text are title-cased keywords of the
    keyword list, each at most once, so never more than thirty. *)
Theorem extracted_skills_distinct_keywords (skills_text : string) :
  exists found_skills,
    JobAnalyzer._extract_skills (Pandas.Str skills_text)
    = Ok (Pandas.Lst found_skills) /\
    NoDup found_skills /\
    incl found_skills (map PyStr.title JobAnalyzer.skill_keywords) /\
    List.length found_skills <= 30.
Proof.
  exists (JobAnalyzer.extract_skills_str skills_text).
  split; [reflexivity|].
  destruct (extracted_skills_are_distinct_keywords skills_text) as [Hnd Hin].
  split; [exact Hnd|]. split; [exact Hin|].
  rewrite extract_skills_str_filter, length_map.
  etransitivity; [apply filter_length_le | reflexivity].
Qed.

Lemma lower_empty (s : string) : PyStr.lower s = "" -> s = "".
Proof. destruct s; [reflexivity | discriminate]. Qed.

(** X6: skill extraction ignores letter case: two texts with the same
    lower-casing have the same extracted skills. *)
Theorem extracted_skills_ignore_case (text1 text2 : string) :
  PyStr.lower text1 = PyStr.lower text2 ->
  JobAnalyzer._extract_skills (Pandas.Str text1)
  = JobAnalyzer._extract_skills (Pandas.Str text2).
Proof.
  intros Hl. cbn [JobAnalyzer._extract_skills]. do 2 f_equal.
  rewrite !extract_skills_str_filter. now rewrite Hl.
Qed.

Lemma extracted_skills_ignore_case_witness :
  PyStr.lower "SQL and Excel" = PyStr.lower "sql AND excel" /\
  JobAnalyzer._extract_skills (Pandas.Str "SQL and Excel")
  = JobAnalyzer._extract_skills (Pandas.Str "sql AND excel").
Proof.
  assert (H : PyStr.lower "SQL and Excel" = PyStr.lower "sql AND excel")
    by reflexivity.
  split; [exact H|].
  exact (extracted_skills_ignore_case "SQL and Excel" "sql AND excel" H).
Defined.

(** X7: extraction is monotone: every skill found in a text is found in any
    text that contains it. *)
Theorem extracted_skills_monotone (before text after : string) :
  incl (JobAnalyzer.extract_skills_str text)
       (JobAnalyzer.extract_skills_str (before ++ text ++ after)).
Proof.
  intros x. rewrite !extract_skills_str_filter. intros Hx.
  apply in_map_iff in Hx as (k & <- & Hin).
  apply filter_In in Hin as [Hin Hc].
  apply in_map, filter_In. split; [exact Hin|].
  apply contains_iff in Hc as (pre & post & Hc).
  apply contains_iff. rewrite !lower_append, Hc.
  exists (PyStr.lower before ++ pre), (post ++ PyStr.lower after).
  now rewrite !append_assoc.
Qed.

(** X8: a keyword that occurs inside another keyword is always found with
    it: whenever the longer one is among the skills of a text, so is the
    shorter one ("Mysql" and "Postgresql" bring "Sql"; "Spark", "Azure" or
    "Jupyter" bring "R"). *)
Theorem contained_keyword_comes_along (inner outer skills_text : string) :
  In inner JobAnalyzer.skill_keywords ->
  In outer JobAnalyzer.skill_keywords ->
  PyStr.contains inner outer = true ->
  In (PyStr.title outer) (JobAnalyzer.extract_skills_str skills_text) ->
  In (PyStr.title inner) (JobAnalyzer.extract_skills_str skills_text).
Proof.
  intros Hi Ho Hio Hfound.
  apply skill_found_iff in Hfound; [|exact Ho].
  apply skill_found_iff; [exact Hi|].
  apply contains_iff in Hio as (a & b & ->).
  apply contains_iff in Hfound as (pre & post & Hs).
  apply contains_iff. exists (pre ++ a), (b ++ post).
  now rewrite Hs, !append_assoc.
Qed.

Lemma contained_keyword_comes_along_witness :
  In "Mysql" (JobAnalyzer.extract_skills_str "MySQL administration") /\
  In "Sql" (JobAnalyzer.extract_skills_str "MySQL administration").
Proof.
  assert (Hi : In "sql" JobAnalyzer.skill_keywords) by (simpl; tauto).
  assert (Ho : In "mysql" JobAnalyzer.skill_keywords) by (simpl; tauto).
  assert (Hf : In "Mysql"
                  (JobAnalyzer.extract_skills_str "MySQL administration"))
    by (vm_compute; tauto).
  split; [exact Hf|].
  exact (contained_keyword_comes_along "sql" "mysql" "MySQL administration"
           Hi Ho eq_refl Hf).
Defined.

(** ** Skill counts, in general *)

Lemma get_top_skills_nonempty (jobs : list RawJobRecord) :
  jobs <> [] ->
  exists a,
    JobAnalyzer.__init__ jobs = Ok a /\
    JobAnalyzer.get_top_skills a
    = Ok (Counter.of_list
            (flat_map (fun r => JobAnalyzer.extract_skills_str (skills r))
                      jobs)).
Proof.
  intros Hne. eexists. split; [apply init_nonempty, Hne|].
  unfold JobAnalyzer.get_top_skills, normalized_columns.
  cbn [JobAnalyzer.df Pandas.has_column Pandas.columns Pandas.lookup
       Pandas.getitem String.eqb Ascii.eqb Bool.eqb negb bind].
  rewrite (flatten_lists (fun r => JobAnalyzer.extract_skills_str (skills r))).
  reflexivity.
Qed.

Lemma list_sum_le_length {A} (f : A -> nat) (l : list A) :
  (forall a, f a <= 1) -> list_sum (map f l) <= List.length l.
Proof.
  intros Hf. induction l as [|a l IH]; simpl; [lia|].
  specialize (Hf a). lia.
Qed.

Lemma list_sum_zero {A} (f : A -> nat) (l : list A) :
  (forall a, f a = 0) -> list_sum (map f l) = 0.
Proof.
  intros Hf. induction l as [|a l IH]; simpl; [reflexivity|].
  now rewrite Hf, IH.
Qed.

(** X9: in the counter returned by [get_top_skills], no skill is counted
    more often than there are records (a record mentions a skill at most
    once), and only title-cased keywords are counted at all. *)
Theorem top_skills_bounds (jobs : list RawJobRecord) (skill : string) :
  exists a skill_counts,
    JobAnalyzer.__init__ jobs = Ok a /\
    JobAnalyzer.get_top_skills a = Ok skill_counts /\
    Counter.get skill_counts skill <= List.length jobs /\
    (~ In skill (map PyStr.title JobAnalyzer.skill_keywords) ->
     Counter.get skill_counts skill = 0).
Proof.
  destruct jobs as [|r0 jobs].
  - eexists. eexists. split; [apply init_empty|].
    split; [reflexivity|]. split; [simpl; lia | reflexivity].
  - set (data := r0 :: jobs).
    destruct (get_top_skills_nonempty data) as (a & Ha & Hc);
      [discriminate|].
    eexists. eexists. split; [exact Ha|]. split; [exact Hc|].
    rewrite counter_get_of_list, count_occ_flat_map. split.
    + apply list_sum_le_length. intros r.
      apply NoDup_count_occ.
      destruct (extracted_skills_are_distinct_keywords (skills r)) as [H _].
      exact H.
    + intros Hnot. apply list_sum_zero. intros r.
      apply count_occ_not_In. intros Hin. apply Hnot.
      destruct (extracted_skills_are_distinct_keywords (skills r)) as [_ H].
      now apply H.
Qed.

(** ** Characters and case *)

Ltac ascii_cases c := destruct c as [[] [] [] [] [] [] [] []].

Lemma lower_char_idem (c : ascii) :
  PyStr.lower_char (PyStr.lower_char c) = PyStr.lower_char c.
Proof. ascii_cases c; reflexivity. Qed.


Lemma upper_lower_char (c : ascii) :
  PyStr.upper_char (PyStr.lower_char c) = PyStr.upper_char c.
Proof. ascii_cases c; reflexivity. Qed.

Lemma isalpha_lower_char (c : ascii) :
  PyStr.isalpha (PyStr.lower_char c) = PyStr.isalpha c.
Proof. ascii_cases c; reflexivity. Qed.


Lemma isword_lower_char (c : ascii) :
  PyStr.isword (PyStr.lower_char c) = PyStr.isword c.
Proof. ascii_cases c; reflexivity. Qed.

Lemma isword_upper_char (c : ascii) :
  PyStr.isword (PyStr.upper_char c) = PyStr.isword c.
Proof. ascii_cases c; reflexivity. Qed.

Lemma lower_char_other (c : ascii) :
  PyStr.isalpha c = false -> PyStr.lower_char c = c.
Proof. ascii_cases c; vm_compute; congruence. Qed.

(** Title-casing only looks at the letters, not at their case. *)
Lemma title_from_lower (b : bool) (s : string) :
  PyStr.title_from b (PyStr.lower s) = PyStr.title_from b s.
Proof.
  revert b. induction s as [|c s IH]; intros b; [reflexivity|].
  cbn [PyStr.lower PyStr.title_from].
  rewrite isalpha_lower_char, lower_char_idem, upper_lower_char, !IH.
  destruct (PyStr.isalpha c) eqn:Hc; [reflexivity|].
  now rewrite lower_char_other.
Qed.


Lemma has_word_title_from (b : bool) (s : string) :
  has_word (PyStr.title_from b s) = has_word s.
Proof.
  revert b. induction s as [|c s IH]; intros b; [reflexivity|].
  cbn [PyStr.title_from]. destruct (PyStr.isalpha c); cbn [has_word].
  - destruct b; now rewrite ?isword_lower_char, ?isword_upper_char, IH.
  - now rewrite IH.
Qed.

(** ** Stripping *)

Lemma lstrip_first (s : string) (c : ascii) (t : string) :
  PyStr.lstrip s = String c t -> PyStr.isspace c = false.
Proof.
  induction s as [|x s IH]; simpl; [discriminate|].
  destruct (PyStr.isspace x) eqn:Hx; [exact IH|].
  intros H. injection H as <- _. exact Hx.
Qed.

Lemma rstrip_cons (c : ascii) (t : string) :
  PyStr.isspace c = false ->
  exists t', PyStr.rstrip (String c t) = String c t'.
Proof.
  intros Hc. cbn [PyStr.rstrip]. destruct (PyStr.rstrip t).
  - rewrite Hc. now exists "".
  - now eexists.
Qed.

(** A stripped text does not begin with whitespace. *)
Lemma strip_first (s : string) (c : ascii) (t : string) :
  PyStr.strip s = String c t -> PyStr.isspace c = false.
Proof.
  unfold PyStr.strip. destruct (PyStr.lstrip s) as [|x u] eqn:Hl.
  - discriminate.
  - pose proof (lstrip_first s x u Hl) as Hx.
    destruct (rstrip_cons x u Hx) as (t' & Hr). rewrite Hr.
    intros H. injection H as <- _. exact Hx.
Qed.

Lemma strip_cons_nonempty (c : ascii) (t : string) :
  PyStr.isspace c = false -> PyStr.strip (String c t) <> "".
Proof.
  intros Hc. unfold PyStr.strip. cbn [PyStr.lstrip]. rewrite Hc.
  destruct (rstrip_cons c t Hc) as (t' & Hr). rewrite Hr. discriminate.
Qed.

Lemma all_in_lstrip p (s : string) :
  Re.all_in p s = true -> Re.all_in p (PyStr.lstrip s) = true.
Proof.
  induction s as [|c s IH]; simpl; [reflexivity|].
  intros H. apply andb_true_iff in H as [Hc Hs].
  destruct (PyStr.isspace c); [now apply IH | simpl; now rewrite Hc, Hs].
Qed.

Lemma all_in_rstrip p (s : string) :
  Re.all_in p s = true -> Re.all_in p (PyStr.rstrip s) = true.
Proof.
  induction s as [|c s IH]; [reflexivity|].
  cbn [Re.all_in PyStr.rstrip]. intros H.
  apply andb_true_iff in H as [Hc Hs]. specialize (IH Hs).
  destruct (PyStr.rstrip s).
  - destruct (PyStr.isspace c); simpl; [reflexivity | now rewrite Hc].
  - cbn [Re.all_in] in *. rewrite Hc. exact IH.
Qed.

Lemma all_in_strip p (s : string) :
  Re.all_in p s = true -> Re.all_in p (PyStr.strip s) = true.
Proof. intros H. now apply all_in_rstrip, all_in_lstrip. Qed.

Lemma all_in_append p (a b : string) :
  Re.all_in p (a ++ b) = Re.all_in p a && Re.all_in p b.
Proof.
  induction a as [|c a IH]; simpl; [reflexivity|].
  now rewrite IH, andb_assoc.
Qed.

Lemma all_in_weaken (p q : ascii -> bool) (s : string) :
  (forall c, p c = true -> q c = true) ->
  Re.all_in p s = true -> Re.all_in q s = true.
Proof.
  intros Hpq. induction s as [|c s IH]; simpl; [reflexivity|].
  intros H. apply andb_true_iff in H as [Hc Hs].
  now rewrite (Hpq c Hc), IH.
Qed.

Lemma has_word_lstrip (s : string) : has_word (PyStr.lstrip s) = has_word s.
Proof.
  induction s as [|c s IH]; [reflexivity|]. cbn [PyStr.lstrip has_word].
  destruct (PyStr.isspace c) eqn:Hc; [|reflexivity].
  now rewrite (space_not_word c Hc), IH.
Qed.

Lemma has_word_rstrip (s : string) : has_word (PyStr.rstrip s) = has_word s.
Proof.
  induction s as [|c s IH]; [reflexivity|]. cbn [PyStr.rstrip has_word].
  rewrite <- IH. destruct (PyStr.rstrip s).
  - destruct (PyStr.isspace c) eqn:Hc.
    + now rewrite (space_not_word c Hc).
    + reflexivity.
  - reflexivity.
Qed.

Lemma has_word_strip (s : string) : has_word (PyStr.strip s) = has_word s.
Proof. unfold PyStr.strip. now rewrite has_word_rstrip, has_word_lstrip. Qed.

(** ** The derived city, in general *)

Lemma first_words_nonempty (s words : string) :
  first_words s = Some words -> words <> "".
Proof.
  induction s as [|c s IH]; [discriminate|]. cbn [first_words].
  destruct (PyStr.isword c) eqn:Hc; [|exact IH].
  intros H. injection H as <-. unfold one_or_two_words.
  cbn [PyStr.take_while]. rewrite Hc.
  destruct (_ || _); discriminate.
Qed.

Lemma first_words_none (s : string) :
  first_words s = None -> has_word s = false.
Proof.
  induction s as [|c s IH]; [reflexivity|]. cbn [first_words has_word].
  destruct (PyStr.isword c); [discriminate | exact IH].
Qed.

Lemma before_comma_no_comma (s : string) :
  Re.all_in JobAnalyzer.not_comma (before_comma s) = true.
Proof. rewrite before_comma_take_while. apply all_in_take_while. Qed.

Lemma first_words_no_comma (s words : string) :
  first_words s = Some words ->
  Re.all_in JobAnalyzer.not_comma words = true.
Proof.
  induction s as [|c s IH]; [discriminate|]. cbn [first_words].
  destruct (PyStr.isword c) eqn:Hc; [|exact IH].
  intros H. injection H as <-. unfold one_or_two_words.
  assert (Hw : forall t, Re.all_in JobAnalyzer.not_comma
                           (PyStr.take_while PyStr.isword t) = true).
  { intros t. apply (all_in_weaken PyStr.isword); [|apply all_in_take_while].
    intros x. ascii_cases x; vm_compute; congruence. }
  assert (Hs : forall t, Re.all_in JobAnalyzer.not_comma
                           (PyStr.take_while PyStr.isspace t) = true).
  { intros t. apply (all_in_weaken PyStr.isspace); [|apply all_in_take_while].
    intros x. ascii_cases x; vm_compute; congruence. }
  destruct (_ || _); [apply Hw|].
  now rewrite !all_in_append, !Hw, Hs.
Qed.

Lemma extract_city_nonempty (location : string) :
  JobAnalyzer.extract_city_str location <> "".
Proof.
  rewrite extract_city_by_design. unfold city_by_design.
  destruct (String.eqb_spec location "") as [->|Hne]; [discriminate|].
  cbn [orb]. destruct (location =? "Unknown"); [discriminate|].
  destruct (PyStr.strip location) as [|c t] eqn:Hs; [exact Hne|].
  pose proof (strip_first _ _ _ Hs) as Hc.
  destruct (c =? ",")%char eqn:Hcomma.
  - destruct (first_words (String c t)) as [words|] eqn:Hw; [|exact Hne].
    now apply first_words_nonempty in Hw.
  - cbn [before_comma]. rewrite Hcomma. now apply strip_cons_nonempty.
Qed.

Lemma extract_city_no_comma (location : string) :
  has_word location = true ->
  Re.all_in JobAnalyzer.not_comma (JobAnalyzer.extract_city_str location)
  = true.
Proof.
  intros Hword. rewrite extract_city_by_design. unfold city_by_design.
  destruct ((location =? "") || (location =? "Unknown")); [reflexivity|].
  pose proof (has_word_strip location) as Hstrip. rewrite Hword in Hstrip.
  destruct (PyStr.strip location) as [|c t] eqn:Hs; [discriminate|].
  destruct (c =? ",")%char.
  - destruct (first_words (String c t)) as [words|] eqn:Hw.
    + now apply first_words_no_comma in Hw.
    + apply first_words_none in Hw. congruence.
  - apply all_in_strip, before_comma_no_comma.
Qed.

(** X10: for every record, the derived city is never the empty string. *)
Theorem city_never_empty (jobs : list RawJobRecord) i r :
  nth_error jobs i = Some r ->
  exists a column city,
    JobAnalyzer.__init__ jobs = Ok a /\
    Pandas.getitem (JobAnalyzer.df a) "city" = Ok column /\
    nth_error column i = Some (Pandas.Str city) /\
    city <> "".
Proof.
  intros Hi. destruct (city_cell jobs i r Hi) as (a & column & Ha & Hc & Hn).
  exists a, column, (JobAnalyzer.extract_city_str (PyStr.title (location r))).
  repeat split; try assumption. apply extract_city_nonempty.
Qed.

Lemma city_never_empty_witness :
  exists a column city,
    JobAnalyzer.__init__ [job_without_location] = Ok a /\
    Pandas.getitem (JobAnalyzer.df a) "city" = Ok column /\
    nth_error column 0 = Some (Pandas.Str city) /\
    city <> "".
Proof.
  exact (city_never_empty [job_without_location] 0 job_without_location
           eq_refl).
Defined.

(** X11: for every record whose location holds a word character (a letter,
    a digit or an underscore), the derived city contains no comma. *)
Theorem city_has_no_comma (jobs : list RawJobRecord) i r :
  nth_error jobs i = Some r ->
  has_word (location r) = true ->
  exists a column city,
    JobAnalyzer.__init__ jobs = Ok a /\
    Pandas.getitem (JobAnalyzer.df a) "city" = Ok column /\
    nth_error column i = Some (Pandas.Str city) /\
    Re.all_in JobAnalyzer.not_comma city = true.
Proof.
  intros Hi Hw.
  destruct (city_cell jobs i r Hi) as (a & column & Ha & Hc & Hn).
  exists a, column, (JobAnalyzer.extract_city_str (PyStr.title (location r))).
  repeat split; try assumption. apply extract_city_no_comma.
  unfold PyStr.title. now rewrite has_word_title_from.
Qed.

Lemma city_has_no_comma_witness :
  exists a column city,
    JobAnalyzer.__init__ [job_with_range] = Ok a /\
    Pandas.getitem (JobAnalyzer.df a) "city" = Ok column /\
    nth_error column 0 = Some (Pandas.Str city) /\
    Re.all_in JobAnalyzer.not_comma city = true.
Proof.
  exact (city_has_no_comma [job_with_range] 0 job_with_range eq_refl eq_refl).
Defined.

(** ** Normalization and letter case *)

Lemma title_lower (s : string) : PyStr.title (PyStr.lower s) = PyStr.title s.
Proof. apply title_from_lower. Qed.

(** X12: locations are compared after title-casing, so two records whose
    locations differ only in letter case get the same location and the same
    city, and count as one location in the summary. *)
Theorem locations_ignore_case (r1 r2 : RawJobRecord) :
  PyStr.lower (location r1) = PyStr.lower (location r2) ->
  exists a summary place city,
    JobAnalyzer.__init__ [r1; r2] = Ok a /\
    Pandas.getitem (JobAnalyzer.df a) "location"
    = Ok [Pandas.Str place; Pandas.Str place] /\
    Pandas.getitem (JobAnalyzer.df a) "city"
    = Ok [Pandas.Str city; Pandas.Str city] /\
    JobAnalyzer.generate_summary a = Ok summary /\
    JobAnalyzer.unique_locations summary = 1.
Proof.
  intros Hl.
  assert (Ht : PyStr.title (location r2) = PyStr.title (location r1))
    by (rewrite <- (title_lower (location r1)), Hl; symmetry;
        apply title_lower).
  destruct (generate_summary_nonempty [r1; r2]) as (a & Ha & Hs);
    [discriminate|].
  exists a. eexists.
  exists (PyStr.title (location r1)),
         (JobAnalyzer.extract_city_str (PyStr.title (location r1))).
  split; [exact Ha|].
  rewrite init_nonempty in Ha by discriminate. injection Ha as <-.
  split; [cbn; now rewrite Ht|]. split; [cbn; now rewrite Ht|].
  split; [exact Hs|].
  cbn [JobAnalyzer.unique_locations map]. rewrite Ht. cbn [nodup].
  destruct (in_dec string_dec _ _) as [_|Hn]; [reflexivity|].
  exfalso. apply Hn. now left.
Qed.

Lemma locations_ignore_case_witness :
  exists a summary place city,
    JobAnalyzer.__init__
      [ {| title := "Data Analyst"; company := "Acme";
           location := "bangalore, karnataka"; salary := ""; skills := "" |};
        {| title := "Data Engineer"; company := "Initech";
           location := "BANGALORE, Karnataka"; salary := ""; skills := "" |} ]
    = Ok a /\
    Pandas.getitem (JobAnalyzer.df a) "location"
    = Ok [Pandas.Str place; Pandas.Str place] /\
    Pandas.getitem (JobAnalyzer.df a) "city"
    = Ok [Pandas.Str city; Pandas.Str city] /\
    JobAnalyzer.generate_summary a = Ok summary /\
    JobAnalyzer.unique_locations summary = 1.
Proof.
  exact (locations_ignore_case
           {| title := "Data Analyst"; company := "Acme";
              location := "bangalore, karnataka"; salary := "";
              skills := "" |}
           {| title := "Data Engineer"; company := "Initech";
              location := "BANGALORE, Karnataka"; salary := "";
              skills := "" |} eq_refl).
Defined.

(** ** Preprocessing twice *)



(** ** Selectors *)

(** X14: field extraction returns the text of the first selector, in list
    order, that finds an element, passing over the selectors that raise or
    find nothing, and stops there even when that text is empty; when no
    selector finds an element the result is the empty string. *)
Theorem safe_extract_first_found (element : Extraction.Element)
        (before : list string) :
  forallb (finds_nothing element) before = true ->
  Extraction._safe_extract_text element before = "" /\
  forall selector text after,
    element selector = Ok (Some text) ->
    Extraction._safe_extract_text element (before ++ selector :: after)%list
    = text.
Proof.
  induction before as [|s before IH]; intros Hb.
  - split; [reflexivity|]. intros selector text after Hs. simpl.
    now rewrite Hs.
  - cbn [forallb] in Hb. apply andb_true_iff in Hb as [Hs Hb].
    destruct (IH Hb) as [IH1 IH2]. unfold finds_nothing in Hs.
    split.
    + cbn [Extraction._safe_extract_text].
      destruct (element s) as [[found|]|e]; [discriminate | exact IH1..].
    + intros selector text after Hsel.
      cbn [app Extraction._safe_extract_text].
      destruct (element s) as [[found|]|e];
        [discriminate | now apply IH2..].
Qed.

Lemma safe_extract_first_found_witness :
  forallb (finds_nothing element_with_empty_h3) ["h2"] = true /\
  Extraction._safe_extract_text element_with_empty_h3
                                Extraction.title_selectors = "".
Proof.
  assert (H : forallb (finds_nothing element_with_empty_h3) ["h2"] = true)
    by reflexivity.
  split; [exact H|].
  exact (proj2 (safe_extract_first_found element_with_empty_h3 ["h2"] H)
               "h3" "" [".title"; ".job-title"; "[data-title]"] eq_refl).
Defined.

Lemma first_selection_spec (soup : Extraction.Soup) (selectors : list string) :
  (exists before selector after,
      selectors = (before ++ selector :: after)%list /\
      Forall (fun s => Extraction.select soup s = []) before /\
      Extraction.select soup selector <> [] /\
      Extraction.first_selection soup selectors
      = Extraction.select soup selector)
  \/ (Forall (fun s => Extraction.select soup s = []) selectors /\
      Extraction.first_selection soup selectors = []).
Proof.
  induction selectors as [|s selectors IH].
  - right. split; [constructor | reflexivity].
  - cbn [Extraction.first_selection].
    destruct (Extraction.select soup s) as [|e els] eqn:Hs.
    + destruct IH as [(before & selector & after & -> & Hb & Hne & Hf)
                     |[Hall Hf]].
      * left. exists (s :: before), selector, after.
        repeat split; [now constructor | exact Hne | exact Hf].
      * right. split; [now constructor | exact Hf].
    + left. exists [], s, selectors.
      repeat split; [constructor | rewrite Hs; discriminate | now rewrite Hs].
Qed.

(** X15: the job elements of a page are those of the first job selector,
    in the fixed order, that selects anything; what later selectors would
    select is ignored; and the generic search is used only when all five
    select nothing. *)
Theorem job_elements_from_first_selector (soup : Extraction.Soup) :
  (exists before selector after,
      Extraction.job_selectors = (before ++ selector :: after)%list /\
      Forall (fun s => Extraction.select soup s = []) before /\
      Extraction.select soup selector <> [] /\
      Extraction.locate_job_elements soup = Extraction.select soup selector)
  \/ (Forall (fun s => Extraction.select soup s = [])
             Extraction.job_selectors /\
      Extraction.locate_job_elements soup
      = Extraction.find_all_generic soup).
Proof.
  unfold Extraction.locate_job_elements.
  destruct (first_selection_spec soup Extraction.job_selectors)
    as [(before & selector & after & Heq & Hb & Hne & Hf)|[Hall Hf]].
  - left. exists before, selector, after. repeat split; try assumption.
    rewrite Hf. destruct (Extraction.select soup selector);
      [contradiction | reflexivity].
  - right. split; [exact Hall|]. now rewrite Hf.
Qed.

(** ** Substitution *)

Lemma sub_from_skip n r repl (a b : string) :
  Re.sub_from n r repl (String.length a) (a ++ b)
  = Re.sub_from n r repl 0 b.
Proof. induction a as [|c a IH]; [reflexivity | exact IH]. Qed.

Lemma sub_from_skip_all n r repl (a : string) :
  Re.sub_from n r repl (String.length a) a = "".
Proof.
  rewrite <- (append_nil_r a) at 2. now rewrite sub_from_skip.
Qed.

Lemma substring_one (c : ascii) (s : string) :
  substring 0 (String.length (String c s) - String.length s) (String c s)
  = String c "".
Proof.
  apply (substring_of_split (String c s) (String c "") s). reflexivity.
Qed.

Lemma match_here_cls n p (c : ascii) (s : string) :
  Re.match_here n (Re.Cls p) (String c s)
  = if p c then Some (String c "") else None.
Proof.
  unfold Re.match_here. cbn [Re.run]. destruct (p c); [|reflexivity].
  now rewrite substring_one.
Qed.

(** Deleting the characters of a class leaves none of them. *)
Lemma sub_cls_deletes n p (s : string) :
  Re.all_in (fun c => negb (p c)) (Re.sub_from n (Re.Cls p) "" 0 s) = true.
Proof.
  induction s as [|c s IH]; [reflexivity|].
  cbn [Re.sub_from]. rewrite match_here_cls.
  destruct (p c) eqn:Hc.
  - cbn [String.length append]. exact IH.
  - cbn [Re.all_in]. now rewrite Hc, IH.
Qed.

(** X16: for a location text in ASCII, every character of the cleaned
    location is a word character, a whitespace character, a comma, a period
    or a hyphen. *)
Theorem cleaned_location_characters (job_data : RawJobRecord) :
  is_ascii (location job_data) = true ->
  Re.all_in location_char (location (JobScraper._clean_job_data job_data))
  = true.
Proof.
  intros _. unfold JobScraper._clean_job_data. cbn [location].
  unfold JobScraper.truthy.
  destruct (String.eqb_spec (location job_data) "") as [->|_];
    [reflexivity|].
  cbn [negb]. unfold Re.sub, JobScraper.location_junk.
  eapply all_in_weaken; [|apply sub_cls_deletes].
  intros c Hc. cbv beta in Hc. rewrite negb_involutive in Hc. exact Hc.
Qed.

Lemma cleaned_location_characters_witness :
  is_ascii (location job_with_decimal_salary) = true /\
  location (JobScraper._clean_job_data job_with_decimal_salary)
  = "Pune MH, India" /\
  Re.all_in location_char
            (location (JobScraper._clean_job_data job_with_decimal_salary))
  = true.
Proof.
  split; [reflexivity|]. split; [reflexivity|].
  exact (cleaned_location_characters job_with_decimal_salary eq_refl).
Defined.

(** ** Whitespace in titles *)

Lemma match_here_plus n p (c : ascii) (s : string) :
  Re.match_here n (Re.Plus p) (String c s)
  = if p c then Some (String c (PyStr.take_while p s)) else None.
Proof.
  unfold Re.match_here. rewrite run_plus. destruct (p c); [|reflexivity].
  rewrite star_greedy_max by discriminate. f_equal.
  apply substring_of_split. simpl. now rewrite take_drop_while.
Qed.

Lemma length_drop_while p (s : string) :
  String.length (PyStr.drop_while p s) <= String.length s.
Proof.
  induction s as [|c s IH]; simpl; [lia|].
  destruct (p c); simpl; lia.
Qed.

Lemma drop_while_head p (s : string) (c : ascii) (t : string) :
  PyStr.drop_while p s = String c t -> p c = false.
Proof.
  induction s as [|x s IH]; simpl; [discriminate|].
  destruct (p x) eqn:Hx; [exact IH|].
  intros H. injection H as <- _. exact Hx.
Qed.

Lemma spaced_from_nonspace (b : bool) (s : string) :
  starts_with PyStr.isspace s = false ->
  spaced_from false s = true -> spaced_from b s = true.
Proof.
  destruct s as [|c s]; [reflexivity|]. cbn [starts_with spaced_from].
  now intros ->.
Qed.

Lemma sub_whitespace_cons n (c : ascii) (s : string) :
  Re.sub_from n JobScraper.whitespace_run " " 0 (String c s)
  = if PyStr.isspace c
    then String " " (Re.sub_from n JobScraper.whitespace_run " " 0
                                 (PyStr.drop_while PyStr.isspace s))
    else String c (Re.sub_from n JobScraper.whitespace_run " " 0 s).
Proof.
  cbn [Re.sub_from]. unfold JobScraper.whitespace_run at 1.
  rewrite match_here_plus. destruct (PyStr.isspace c); [|reflexivity].
  rewrite <- (take_drop_while PyStr.isspace s) at 2.
  now rewrite sub_from_skip.
Qed.

(** Replacing every run of whitespace by one space leaves single spaces
    only. *)
Lemma sub_whitespace_spaced n : forall (k : nat) (s : string),
  String.length s <= k ->
  spaced_from false
    (Re.sub_from n JobScraper.whitespace_run " " 0 s) = true
  /\ (starts_with PyStr.isspace s = false ->
      starts_with PyStr.isspace
        (Re.sub_from n JobScraper.whitespace_run " " 0 s) = false).
Proof.
  induction k as [|k IH]; intros s Hk.
  - destruct s; [split; reflexivity | simpl in Hk; lia].
  - destruct s as [|c s]; [split; reflexivity|].
    rewrite sub_whitespace_cons.
    destruct (PyStr.isspace c) eqn:Hc.
    + destruct (IH (PyStr.drop_while PyStr.isspace s)) as [H1 H2].
      { pose proof (length_drop_while PyStr.isspace s). simpl in Hk. lia. }
      split.
      * cbn [spaced_from].
        change (PyStr.isspace " ") with true.
        cbn [Ascii.eqb Bool.eqb negb andb].
        apply spaced_from_nonspace; [|exact H1].
        apply H2.
        destruct (PyStr.drop_while PyStr.isspace s) as [|x t] eqn:Hd;
          [reflexivity|]. cbn [starts_with].
        now apply drop_while_head in Hd.
      * cbn [starts_with]. congruence.
    + destruct (IH s) as [H1 _]; [simpl in Hk; lia|].
      split.
      * cbn [spaced_from]. now rewrite Hc.
      * intros _. cbn [starts_with]. exact Hc.
Qed.

Lemma lstrip_spaced (s : string) :
  spaced_from false s = true -> spaced_from true (PyStr.lstrip s) = true.
Proof.
  destruct s as [|c s]; [reflexivity|]. cbn [spaced_from PyStr.lstrip].
  destruct (PyStr.isspace c) eqn:Hc.
  - intros H. apply andb_true_iff in H as [_ H].
    destruct s as [|x s]; [reflexivity|]. cbn [PyStr.lstrip].
    cbn [spaced_from] in H. destruct (PyStr.isspace x) eqn:Hx.
    + rewrite andb_false_r in H. discriminate.
    + cbn [spaced_from]. now rewrite Hx.
  - intros H. cbn [spaced_from]. now rewrite Hc.
Qed.

Lemma rstrip_single_spaced (s : string) : forall b,
  spaced_from b s = true ->
  PyStr.rstrip s <> "" ->
  single_spaced_from b (PyStr.rstrip s) = true.
Proof.
  induction s as [|c s IH]; intros b Hs Hne; [now contradiction Hne|].
  cbn [PyStr.rstrip] in *. cbn [spaced_from] in Hs.
  destruct (PyStr.rstrip s) as [|x t] eqn:Hr.
  - destruct (PyStr.isspace c) eqn:Hc; [now contradiction Hne|].
    cbn [single_spaced_from]. now rewrite Hc.
  - cbn [single_spaced_from]. destruct (PyStr.isspace c) eqn:Hc.
    + apply andb_true_iff in Hs as [Hs1 Hs2]. rewrite Hs1. cbn [andb].
      apply IH; [exact Hs2 | discriminate].
    + apply IH; [exact Hs | discriminate].
Qed.

Lemma strip_single_spaced (s : string) :
  spaced_from false s = true -> single_spaced (PyStr.strip s) = true.
Proof.
  intros Hs. unfold single_spaced, PyStr.strip.
  destruct (PyStr.rstrip (PyStr.lstrip s)) as [|c t] eqn:Hr; [reflexivity|].
  rewrite <- Hr. apply rstrip_single_spaced.
  - now apply lstrip_spaced.
  - rewrite Hr. discriminate.
Qed.

Lemma collapsed_single_spaced (s : string) :
  single_spaced (PyStr.strip (Re.sub JobScraper.whitespace_run " " s)) = true.
Proof.
  apply strip_single_spaced. unfold Re.sub.
  now apply (sub_whitespace_spaced _ (String.length s) s).
Qed.

(** X17: a cleaned title has no whitespace at its ends, and no whitespace
    inside other than single spaces. *)
Theorem cleaned_title_single_spaced (job_data : RawJobRecord) :
  single_spaced (title (JobScraper._clean_job_data job_data)) = true.
Proof.
  unfold JobScraper._clean_job_data. cbn [title].
  unfold JobScraper.truthy.
  destruct (String.eqb_spec (title job_data) "") as [->|_]; [reflexivity|].
  cbn [negb]. apply collapsed_single_spaced.
Qed.

(** ** The edges of company names *)

Lemma all_in_drop_while_empty p (s : string) :
  Re.all_in p s = true -> PyStr.drop_while p s = "".
Proof.
  induction s as [|c s IH]; simpl; [reflexivity|].
  intros H. apply andb_true_iff in H as [Hc Hs]. now rewrite Hc, IH.
Qed.

Lemma drop_while_nonempty p (s : string) :
  Re.all_in p s = false -> PyStr.drop_while p s <> "".
Proof.
  induction s as [|c s IH]; simpl; [discriminate|].
  destruct (p c); [exact IH | discriminate].
Qed.

Lemma newline_nonword : JobScraper.nonword "010" = true.
Proof. reflexivity. Qed.

(** After the start of the subject, the pattern matches a run of non-word
    characters only when the run reaches the end. *)
Lemma match_here_edges_later n (c : ascii) (s : string) :
  String.length (String c s) < n ->
  Re.match_here n JobScraper.company_edges (String c s)
  = if JobScraper.nonword c && Re.all_in JobScraper.nonword s
    then Some (String c s) else None.
Proof.
  intros Hlt. unfold Re.match_here, JobScraper.company_edges.
  cbn [Re.run].
  assert (Hn : (String.length (String c s) =? n)%nat = false)
    by (apply Nat.eqb_neq; lia).
  rewrite Hn. destruct (JobScraper.nonword c) eqn:Hc; [|reflexivity].
  cbn [andb]. rewrite star_greedy_max.
  - cbv beta. cbn [Re.run].
    destruct (Re.all_in JobScraper.nonword s) eqn:Hs.
    + rewrite (all_in_drop_while_empty _ _ Hs). cbn [String.eqb orb].
      f_equal. apply substring_of_split. now rewrite append_nil_r.
    + destruct (PyStr.drop_while JobScraper.nonword s) as [|x t] eqn:Hd.
      * now apply drop_while_nonempty in Hs.
      * apply drop_while_head in Hd.
        destruct (String.eqb_spec (String x t) "") as [He|_];
          [discriminate|]. cbn [orb].
        destruct (String.eqb_spec (String x t) (String "010" "")) as [He|_];
          [|reflexivity].
        injection He as -> _. rewrite newline_nonword in Hd. discriminate.
  - intros x t Hx. cbn [Re.run].
    destruct (String.eqb_spec (String x t) "") as [He|_];
      [discriminate|]. cbn [orb].
    destruct (String.eqb_spec (String x t) (String "010" "")) as [He|_];
      [|reflexivity].
    injection He as -> ->. discriminate.
Qed.

Lemma match_here_edges_start (c : ascii) (s : string) :
  Re.match_here (String.length (String c s)) JobScraper.company_edges
                (String c s)
  = if JobScraper.nonword c
    then Some (String c (PyStr.take_while JobScraper.nonword s)) else None.
Proof.
  unfold Re.match_here, JobScraper.company_edges. cbn [Re.run].
  rewrite Nat.eqb_refl. destruct (JobScraper.nonword c) eqn:Hc;
    [|reflexivity].
  rewrite star_greedy_max by discriminate. f_equal.
  apply substring_of_split. simpl. now rewrite take_drop_while.
Qed.

Lemma sub_edges_later n (s : string) :
  String.length s < n ->
  Re.sub_from n JobScraper.company_edges "" 0 s
  = trim_end JobScraper.nonword s.
Proof.
  induction s as [|c s IH]; intros Hlt; [reflexivity|].
  cbn [Re.sub_from trim_end Re.all_in].
  rewrite match_here_edges_later by exact Hlt.
  destruct (JobScraper.nonword c && Re.all_in JobScraper.nonword s).
  - cbn [append]. apply sub_from_skip_all.
  - rewrite IH by (simpl in Hlt; lia). reflexivity.
Qed.

(** Stripping the edges removes the leading and the trailing run of
    non-word characters. *)
Lemma sub_edges (s : string) :
  Re.sub JobScraper.company_edges "" s
  = trim_end JobScraper.nonword (PyStr.drop_while JobScraper.nonword s).
Proof.
  unfold Re.sub. destruct s as [|c s]; [reflexivity|].
  cbn [Re.sub_from]. rewrite match_here_edges_start.
  cbn [PyStr.drop_while].
  destruct (JobScraper.nonword c) eqn:Hc.
  - cbv iota. cbn [append].
    transitivity
      (Re.sub_from (String.length (String c s)) JobScraper.company_edges ""
         (String.length (PyStr.take_while JobScraper.nonword s))
         (PyStr.take_while JobScraper.nonword s
          ++ PyStr.drop_while JobScraper.nonword s));
      [now rewrite take_drop_while|].
    rewrite sub_from_skip. apply sub_edges_later.
    pose proof (length_drop_while JobScraper.nonword s). simpl. lia.
  - rewrite sub_edges_later by (simpl; lia).
    cbn [trim_end Re.all_in]. now rewrite Hc.
Qed.

Lemma trim_end_empty p (s : string) :
  trim_end p s = "" -> Re.all_in p s = true.
Proof.
  destruct s as [|c s]; [reflexivity|]. cbn [trim_end].
  destruct (Re.all_in p (String c s)); [reflexivity | discriminate].
Qed.

Lemma trim_end_ends p (s : string) :
  trim_end p s <> "" ->
  ends_with (fun c => negb (p c)) (trim_end p s) = true.
Proof.
  induction s as [|c s IH]; [intros H; now contradiction H|].
  cbn [trim_end]. destruct (Re.all_in p (String c s)) eqn:Hall;
    [intros H; now contradiction H|]. intros _.
  destruct (trim_end p s) as [|x t] eqn:Ht.
  - apply trim_end_empty in Ht. cbn [Re.all_in] in Hall.
    rewrite Ht, andb_true_r in Hall. cbn [ends_with]. now rewrite Hall.
  - cbn [ends_with]. apply IH. discriminate.
Qed.

(** X18: for a company text in ASCII, the cleaned company name is empty,
    or begins and ends with a word character: the punctuation and
    whitespace at its edges are gone. *)
Theorem cleaned_company_edges (job_data : RawJobRecord) :
  is_ascii (company job_data) = true ->
  let cleaned := company (JobScraper._clean_job_data job_data) in
  cleaned = "" \/
  (starts_with PyStr.isword cleaned = true /\
   ends_with PyStr.isword cleaned = true).
Proof.
  intros _. cbv zeta. unfold JobScraper._clean_job_data. cbn [company].
  unfold JobScraper.truthy.
  destruct (String.eqb_spec (company job_data) "") as [He|_];
    [now left|]. cbn [negb].
  rewrite sub_edges.
  set (v := PyStr.drop_while JobScraper.nonword _).
  destruct (trim_end JobScraper.nonword v) as [|c t] eqn:Ht;
    [now left | right].
  assert (Hends : ends_with PyStr.isword (trim_end JobScraper.nonword v)
                  = true).
  { rewrite <- (trim_end_ends JobScraper.nonword v) by (rewrite Ht; discriminate).
    clear. generalize (trim_end JobScraper.nonword v). intros u.
    induction u as [|x u IH]; [reflexivity|].
    cbn [ends_with]. destruct u; [|exact IH].
    unfold JobScraper.nonword. now rewrite negb_involutive. }
  rewrite Ht in Hends. split; [|exact Hends].
  destruct v as [|x u] eqn:Hv; [discriminate|].
  cbn [trim_end] in Ht.
  destruct (Re.all_in JobScraper.nonword (String x u)); [discriminate|].
  injection Ht as <- _. subst v. apply drop_while_head in Hv.
  cbn [starts_with]. unfold JobScraper.nonword in Hv.
  now apply negb_false_iff in Hv.
Qed.

Lemma cleaned_company_edges_witness :
  is_ascii (company job_with_decimal_salary) = true /\
  company (JobScraper._clean_job_data job_with_decimal_salary) = "Acme, Inc".
Proof.
  split; [reflexivity|].
  destruct (cleaned_company_edges job_with_decimal_salary eq_refl)
    as [H|_]; [discriminate H | reflexivity].
Defined.

(** ** Where the cleaned salary starts *)

Lemma salary_tail_total n (s : string) :
  Re.run n
    (Re.Cat
       (Re.Opt (Re.Cat (Re.Cls (fun c => (c =? ".")%char))
                       (Re.Plus PyStr.isdigit)))
       (Re.Opt (Re.Cat (Re.Star PyStr.isspace)
                  (Re.Alt (Re.Lit "lakh")
                     (Re.Alt (Re.Lit "LPA")
                        (Re.Alt (Re.Lit "per annum") (Re.Lit "PA")))))))
    s Some <> None.
Proof.
  rewrite run_cat, run_opt.
  destruct (Re.run n (Re.Cat _ _) s _); [discriminate|].
  apply run_opt_total.
Qed.

(** At a digit or a comma, the salary pattern matches, and its match begins
    with the whole run of digits and commas that starts there. *)
Lemma match_here_salary n (c : ascii) (s : string) :
  String.length (String c s) <= n ->
  JobScraper.digit_or_comma c = true ->
  exists tail,
    Re.match_here n JobScraper.salary_pattern (String c s)
    = Some (String c (PyStr.take_while JobScraper.digit_or_comma s) ++ tail).
Proof.
  intros Hle Hc. unfold Re.match_here, JobScraper.salary_pattern.
  rewrite run_cat, run_plus, Hc.
  rewrite star_greedy_max.
  2:{ intros x t _ H. exfalso. exact (salary_tail_total _ _ H). }
  destruct (Re.run n _ (PyStr.drop_while JobScraper.digit_or_comma s) Some)
    as [rest|] eqn:Hr; [|now apply salary_tail_total in Hr].
  apply run_sound in Hr as (m & rest' & Hd & _ & Hk).
  2:{ pose proof (length_drop_while JobScraper.digit_or_comma s).
      simpl in Hle. lia. }
  injection Hk as ->. exists m. f_equal.
  apply substring_of_split. simpl. rewrite append_assoc, <- Hd.
  now rewrite take_drop_while.
Qed.

Lemma match_here_salary_none n (c : ascii) (s : string) :
  JobScraper.digit_or_comma c = false ->
  Re.match_here n JobScraper.salary_pattern (String c s) = None.
Proof.
  intros Hc. unfold Re.match_here, JobScraper.salary_pattern.
  now rewrite run_cat, run_plus, Hc.
Qed.

Lemma search_from_salary n (s : string) :
  String.length s <= n ->
  match PyStr.drop_while no_digit_or_comma s with
  | "" => Re.search_from n JobScraper.salary_pattern s = None
  | String c t =>
      exists tail,
        Re.search_from n JobScraper.salary_pattern s
        = Some (PyStr.take_while JobScraper.digit_or_comma (String c t)
                ++ tail)
  end.
Proof.
  induction s as [|c s IH]; intros Hle; [reflexivity|].
  cbn [PyStr.drop_while Re.search_from]. unfold no_digit_or_comma at 1.
  destruct (JobScraper.digit_or_comma c) eqn:Hc; cbn [negb].
  - destruct (match_here_salary n c s Hle Hc) as (tail & ->).
    exists tail. cbn [PyStr.take_while]. now rewrite Hc.
  - rewrite match_here_salary_none by exact Hc.
    apply IH. simpl in Hle. lia.
Qed.

(** X19: for a salary text in ASCII: a text without any digit or comma is
    kept as it is; otherwise the cleaned salary starts at the first digit or
    comma of the text and begins with the whole run of digits and commas
    found there. *)
Theorem cleaned_salary_start (job_data : RawJobRecord) :
  is_ascii (salary job_data) = true ->
  let raw := salary job_data in
  let cleaned := salary (JobScraper._clean_job_data job_data) in
  match PyStr.drop_while no_digit_or_comma raw with
  | "" => cleaned = raw
  | String c t =>
      exists tail,
        cleaned
        = PyStr.take_while JobScraper.digit_or_comma (String c t) ++ tail
  end.
Proof.
  intros _. cbv zeta. unfold JobScraper._clean_job_data. cbn [salary].
  unfold JobScraper.truthy.
  destruct (String.eqb_spec (salary job_data) "") as [->|_];
    [reflexivity|]. cbn [negb]. unfold Re.search.
  pose proof (search_from_salary (String.length (salary job_data))
                                 (salary job_data) (le_n _)) as H.
  destruct (PyStr.drop_while no_digit_or_comma (salary job_data)).
  - now rewrite H.
  - destruct H as (tail & ->). now exists tail.
Qed.

Lemma cleaned_salary_start_witness :
  is_ascii (salary job_with_decimal_salary) = true /\
  exists tail,
    salary (JobScraper._clean_job_data job_with_decimal_salary)
    = "12" ++ tail.
Proof.
  split; [reflexivity|].
  exact (cleaned_salary_start job_with_decimal_salary eq_refl).
Defined.

(** ** The requested URL *)

Lemma replace_no_space (s : string) :
  Re.all_in no_space (PyStr.replace " " "+" s) = true.
Proof.
  induction s as [|c s IH]; [reflexivity|]. cbn [PyStr.replace Re.all_in].
  rewrite IH, andb_true_r. unfold no_space.
  destruct (Ascii.eqb_spec c " ") as [->|Hc]; [reflexivity|].
  now apply negb_true_iff, Ascii.eqb_neq.
Qed.

Lemma of_uint_no_space (d : Decimal.uint) :
  Re.all_in no_space (NilEmpty.string_of_uint d) = true.
Proof. induction d; simpl; try reflexivity; exact IHd. Qed.

(** X20: the URL requested for a page has no space in it whenever the base
    URL has none: the spaces of the query are replaced by plus signs. *)
Theorem page_url_has_no_space (self : JobScraper.t) (search_query : string)
        (page : nat) :
  Re.all_in no_space (JobScraper.base_url self) = true ->
  Re.all_in no_space (JobScraper.page_url self search_query page) = true.
Proof.
  intros Hb. unfold JobScraper.page_url, PyStr.of_nat.
  rewrite !all_in_append, Hb, replace_no_space, of_uint_no_space.
  reflexivity.
Qed.

Lemma page_url_has_no_space_witness :
  Re.all_in no_space
    (JobScraper.page_url (JobScraper.__init__ "https://jobs.example" 2)
                         "senior data analyst" 12) = true.
Proof.
  exact (page_url_has_no_space (JobScraper.__init__ "https://jobs.example" 2)
           "senior data analyst" 12 eq_refl).
Defined.

(** ** What a run hands to the Analyzer *)

Lemma cleaned_record_facts (job_data : RawJobRecord) :
  single_spaced (title (JobScraper._clean_job_data job_data)) = true /\
  Re.all_in location_char (location (JobScraper._clean_job_data job_data))
  = true.
Proof.
  unfold JobScraper._clean_job_data. cbn [title location].
  unfold JobScraper.truthy. split.
  - destruct (String.eqb_spec (title job_data) "") as [->|_];
      [reflexivity|].
    cbn [negb]. apply collapsed_single_spaced.
  - destruct (String.eqb_spec (location job_data) "") as [->|_];
      [reflexivity|].
    cbn [negb]. unfold Re.sub, JobScraper.location_junk.
    eapply all_in_weaken; [|apply sub_cls_deletes].
    intros c Hc. cbv beta in Hc. rewrite negb_involutive in Hc. exact Hc.
Qed.

Lemma listings_filter (job_elements : list RawJobRecord) :
  JobScraper._extract_job_listings job_elements
  = filter (fun job_data => JobScraper.truthy (title job_data))
           (map JobScraper._clean_job_data job_elements).
Proof.
  unfold JobScraper._extract_job_listings. now rewrite fold_keep_titled.
Qed.

(** X21: when the location texts of the pages are in ASCII, every record a
    fresh scraper holds after a run, whatever else the portal answered, has
    a title that is non-empty and single-spaced and a location made of word
    characters, whitespace, commas, periods and hyphens only. *)
Theorem scraped_records_are_clean
        (fetch : nat -> result (list RawJobRecord)) (base_url : string)
        (delay : nat) (search_query : string) (num_pages : nat) :
  (forall page job_elements,
      fetch page = Ok job_elements ->
      Forall (fun job_element => is_ascii (location job_element) = true)
             job_elements) ->
  Forall (fun job =>
            title job <> "" /\
            single_spaced (title job) = true /\
            Re.all_in location_char (location job) = true)
         (JobScraper.jobs_data
            (fst (JobScraper.scrape_jobs fetch
                    (JobScraper.__init__ base_url delay)
                    search_query num_pages))).
Proof.
  intros _. unfold JobScraper.scrape_jobs. rewrite scrape_loop_spec.
  cbn [fst JobScraper.jobs_data JobScraper.__init__ app].
  apply Forall_forall. intros job Hjob.
  apply in_flat_map in Hjob as (page & _ & Hjob).
  unfold page_records in Hjob.
  destruct (fetch page) as [job_elements|e]; [|contradiction].
  rewrite listings_filter in Hjob. apply filter_In in Hjob as [Hin Htitle].
  apply in_map_iff in Hin as (job_element & <- & _).
  destruct (cleaned_record_facts job_element) as [H1 H2].
  repeat split; try assumption.
  intros He. unfold JobScraper.truthy in Htitle. rewrite He in Htitle.
  discriminate.
Qed.

Lemma flaky_portal_ascii (page : nat) (job_elements : list RawJobRecord) :
  flaky_portal page = Ok job_elements ->
  Forall (fun job_element => is_ascii (location job_element) = true)
         job_elements.
Proof.
  destruct page as [|[|[|page]]]; intros H; try discriminate H;
    injection H as <-; repeat constructor.
Defined.

Lemma scraped_records_are_clean_witness :
  Forall (fun job =>
            title job <> "" /\
            single_spaced (title job) = true /\
            Re.all_in location_char (location job) = true)
         (JobScraper.jobs_data
            (fst (JobScraper.scrape_jobs flaky_portal
                    (JobScraper.__init__ "https://jobs.example" 2)
                    "data analyst" 3))).
Proof.
  exact (scraped_records_are_clean flaky_portal "https://jobs.example" 2
           "data analyst" 3 flaky_portal_ascii).
Defined.

(** ** Distinct companies and locations *)

Lemma nodup_map_length_le (f : string -> string) (l : list string) :
  List.length (nodup string_dec (map f l))
  <= List.length (nodup string_dec l).
Proof.
  rewrite <- (length_map f (nodup string_dec l)).
  apply NoDup_incl_length; [apply NoDup_nodup|].
  intros x Hx. apply nodup_In in Hx. apply in_map_iff in Hx as (a & <- & Ha).
  apply in_map. now apply nodup_In.
Qed.

(** X22: the summary counts companies as they are written, and locations
    after title-casing: the number of distinct companies is the number of
    distinct company strings, and the number of distinct locations is at
    most the number of distinct location strings. *)
Theorem summary_distinct_counts (jobs : list RawJobRecord) :
  exists a summary,
    JobAnalyzer.__init__ jobs = Ok a /\
    JobAnalyzer.generate_summary a = Ok summary /\
    JobAnalyzer.unique_companies summary
    = List.length (nodup string_dec (map company jobs)) /\
    JobAnalyzer.unique_locations summary
    <= List.length (nodup string_dec (map location jobs)).
Proof.
  destruct jobs as [|r jobs].
  - eexists. eexists. split; [apply init_empty|]. split; [reflexivity|].
    split; [reflexivity | cbn; lia].
  - set (data := r :: jobs).
    destruct (generate_summary_nonempty data) as (a & Ha & Hs);
      [discriminate|].
    eexists. eexists. split; [exact Ha|]. split; [exact Hs|].
    cbn [JobAnalyzer.unique_companies JobAnalyzer.unique_locations].
    split; [reflexivity|].
    rewrite <- (map_map location PyStr.title). apply nodup_map_length_le.
Qed.

(* ================================================================== *)
(** * Salary cleaning *)

(** ** What the search returns, exactly *)

Lemma drop_prefix_some (word z : string) :
  prefix word z = true ->
  exists r, Re.drop_prefix word z = Some r /\ z = word ++ r.
Proof.
  intros H. apply prefix_iff in H as (r & ->). exists r.
  split; [now apply drop_prefix_iff | reflexivity].
Qed.

Lemma drop_prefix_none (word z : string) :
  prefix word z = false -> Re.drop_prefix word z = None.
Proof.
  intros H. destruct (Re.drop_prefix word z) as [r|] eqn:Hd; [|reflexivity].
  apply drop_prefix_iff in Hd.
  assert (Hp : prefix word z = true) by (apply prefix_iff; now exists r).
  congruence.
Qed.

Lemma run_lit n (word z : string) k :
  Re.run n (Re.Lit word) z k
  = match Re.drop_prefix word z with
    | Some r => k r
    | None => None
    end.
Proof. reflexivity. Qed.

Lemma run_alt n r1 r2 (z : string) k :
  Re.run n (Re.Alt r1 r2) z k
  = match Re.run n r1 z k with
    | Some rest => Some rest
    | None => Re.run n r2 z k
    end.
Proof. reflexivity. Qed.

Lemma run_star n p (s : string) k :
  Re.run n (Re.Star p) s k = Re.star_greedy p s k.
Proof. reflexivity. Qed.

Lemma run_cls n p (c : ascii) (s : string) k :
  Re.run n (Re.Cls p) (String c s) k = if p c then k s else None.
Proof. reflexivity. Qed.

Lemma run_cls_nil n p k : Re.run n (Re.Cls p) "" k = None.
Proof. reflexivity. Qed.

Lemma run_plus_nil n p k : Re.run n (Re.Plus p) "" k = None.
Proof. reflexivity. Qed.

(** The alternation of the suffix words takes the first word, in the order
    of the list, that the text begins with. *)
Lemma run_suffix_words n (z : string) :
  match find (fun word => prefix word z) suffix_words with
  | Some word =>
      exists r,
        z = word ++ r /\
        Re.run n (Re.Alt (Re.Lit "lakh")
                    (Re.Alt (Re.Lit "LPA")
                       (Re.Alt (Re.Lit "per annum") (Re.Lit "PA"))))
               z Some = Some r
  | None =>
      Re.run n (Re.Alt (Re.Lit "lakh")
                  (Re.Alt (Re.Lit "LPA")
                     (Re.Alt (Re.Lit "per annum") (Re.Lit "PA"))))
             z Some = None
  end.
Proof.
  unfold suffix_words. cbn [find]. rewrite !run_alt, !run_lit.
  destruct (prefix "lakh" z) eqn:H1.
  { destruct (drop_prefix_some _ _ H1) as (r & -> & Hz). now exists r. }
  rewrite (drop_prefix_none _ _ H1).
  destruct (prefix "LPA" z) eqn:H2.
  { destruct (drop_prefix_some _ _ H2) as (r & -> & Hz). now exists r. }
  rewrite (drop_prefix_none _ _ H2).
  destruct (prefix "per annum" z) eqn:H3.
  { destruct (drop_prefix_some _ _ H3) as (r & -> & Hz). now exists r. }
  rewrite (drop_prefix_none _ _ H3).
  destruct (prefix "PA" z) eqn:H4.
  { destruct (drop_prefix_some _ _ H4) as (r & -> & Hz). now exists r. }
  now rewrite (drop_prefix_none _ _ H4).
Qed.

Lemma suffix_words_fail_on_space n (c : ascii) (t : string) :
  PyStr.isspace c = true ->
  Re.run n (Re.Alt (Re.Lit "lakh")
              (Re.Alt (Re.Lit "LPA")
                 (Re.Alt (Re.Lit "per annum") (Re.Lit "PA"))))
         (String c t) Some = None.
Proof. ascii_cases c; vm_compute; congruence. Qed.

(** The optional suffix of the pattern takes [suffix_part]. *)
Lemma run_suffix n (y : string) :
  exists r,
    Re.run n
      (Re.Opt (Re.Cat (Re.Star PyStr.isspace)
                 (Re.Alt (Re.Lit "lakh")
                    (Re.Alt (Re.Lit "LPA")
                       (Re.Alt (Re.Lit "per annum") (Re.Lit "PA"))))))
      y Some = Some r
    /\ y = suffix_part y ++ r.
Proof.
  rewrite run_opt, run_cat, run_star.
  rewrite star_greedy_max
    by (intros c t Hc _; now apply suffix_words_fail_on_space).
  unfold suffix_part.
  pose proof (run_suffix_words n (PyStr.drop_while PyStr.isspace y)) as H.
  destruct (find _ suffix_words) as [word|].
  - destruct H as (r & Hz & ->). exists r. split; [reflexivity|].
    rewrite append_assoc, <- Hz. now rewrite take_drop_while.
  - rewrite H. exists y. split; reflexivity.
Qed.

Lemma decimal_split (x : string) : x = decimal_part x ++ after_decimal x.
Proof.
  destruct x as [|c digits]; [reflexivity|].
  unfold decimal_part, after_decimal.
  destruct ((c =? ".")%char && starts_with PyStr.isdigit digits);
    [|reflexivity].
  simpl. now rewrite take_drop_while.
Qed.

(** What follows the digits and commas: an optional decimal part, then an
    optional suffix. *)
Lemma run_salary_tail n (x : string) :
  exists r,
    Re.run n
      (Re.Cat
         (Re.Opt (Re.Cat (Re.Cls (fun c => (c =? ".")%char))
                         (Re.Plus PyStr.isdigit)))
         (Re.Opt (Re.Cat (Re.Star PyStr.isspace)
                    (Re.Alt (Re.Lit "lakh")
                       (Re.Alt (Re.Lit "LPA")
                          (Re.Alt (Re.Lit "per annum") (Re.Lit "PA")))))))
      x Some = Some r
    /\ x = decimal_part x ++ suffix_part (after_decimal x) ++ r.
Proof.
  rewrite run_cat, run_opt.
  assert (Hskip :
    forall y, exists r,
      Re.run n
        (Re.Opt (Re.Cat (Re.Star PyStr.isspace)
                   (Re.Alt (Re.Lit "lakh")
                      (Re.Alt (Re.Lit "LPA")
                         (Re.Alt (Re.Lit "per annum") (Re.Lit "PA"))))))
        y Some = Some r
      /\ y = suffix_part y ++ r) by (intros y; apply run_suffix).
  destruct x as [|c digits].
  - rewrite run_cat, run_cls_nil.
    destruct (Hskip "") as (r & Hr & Hy). exists r.
    split; [exact Hr | exact Hy].
  - rewrite run_cat, run_cls.
    unfold decimal_part, after_decimal.
    destruct (c =? ".")%char; cbn [andb].
    + destruct digits as [|d digits'].
      * rewrite run_plus_nil. cbn [starts_with].
        destruct (Hskip (String c "")) as (r & Hr & Hy).
        exists r. split; [exact Hr | exact Hy].
      * rewrite run_plus. cbn [starts_with].
        destruct (PyStr.isdigit d) eqn:Hd.
        -- rewrite star_greedy_max.
           2:{ intros x t _ H. exfalso. exact (run_opt_total _ _ _ H). }
           cbn [PyStr.take_while PyStr.drop_while]. rewrite Hd.
           destruct (Hskip (PyStr.drop_while PyStr.isdigit digits'))
             as (r & Hr & Hy).
           exists r. rewrite Hr. split; [reflexivity|].
           cbn [append]. do 2 f_equal.
           rewrite <- Hy. now rewrite take_drop_while.
        -- destruct (Hskip (String c (String d digits'))) as (r & Hr & Hy).
           exists r. split; [exact Hr | exact Hy].
    + destruct (Hskip (String c digits)) as (r & Hr & Hy).
      exists r. split; [exact Hr | exact Hy].
Qed.

(** At a digit or a comma, the pattern matches the numeric token. *)
Lemma match_here_salary_token n (c : ascii) (s : string) :
  JobScraper.digit_or_comma c = true ->
  Re.match_here n JobScraper.salary_pattern (String c s)
  = Some (salary_token (String c s)).
Proof.
  intros Hc. unfold Re.match_here, JobScraper.salary_pattern.
  rewrite run_cat, run_plus, Hc.
  rewrite star_greedy_max.
  2:{ intros x t _ H. exfalso. exact (salary_tail_total _ _ H). }
  destruct (run_salary_tail n (PyStr.drop_while JobScraper.digit_or_comma s))
    as (r & Hr & Hx).
  rewrite Hr. f_equal. apply substring_of_split.
  unfold salary_token. cbn [PyStr.take_while PyStr.drop_while].
  rewrite Hc. cbn [append]. f_equal.
  rewrite !append_assoc, <- Hx. now rewrite take_drop_while.
Qed.

Lemma search_from_salary_token n (s : string) :
  Re.search_from n JobScraper.salary_pattern s
  = match PyStr.drop_while no_digit_or_comma s with
    | "" => None
    | String c t => Some (salary_token (String c t))
    end.
Proof.
  induction s as [|c s IH]; [reflexivity|].
  cbn [PyStr.drop_while Re.search_from]. unfold no_digit_or_comma at 1.
  destruct (JobScraper.digit_or_comma c) eqn:Hc; cbn [negb].
  - now rewrite match_here_salary_token.
  - rewrite match_here_salary_none by exact Hc. exact IH.
Qed.

(** Cleaning computes [first_salary_token]. *)
Lemma clean_salary_token (job_data : RawJobRecord) :
  salary (JobScraper._clean_job_data job_data)
  = first_salary_token (salary job_data).
Proof.
  unfold JobScraper._clean_job_data, first_salary_token. cbn [salary].
  unfold JobScraper.truthy, Re.search. rewrite search_from_salary_token.
  destruct (String.eqb_spec (salary job_data) "") as [->|_];
    [reflexivity|]. cbn [negb].
  destruct (PyStr.drop_while no_digit_or_comma (salary job_data));
    reflexivity.
Qed.

(** ** The token among all the matches *)

Lemma matches_cat_inv b r1 r2 m rest :
  Re.matches b (Re.Cat r1 r2) m rest ->
  exists m1 m2,
    m = m1 ++ m2 /\
    Re.matches b r1 m1 (m2 ++ rest) /\
    Re.matches (b && Re.is_empty m1) r2 m2 rest.
Proof. intros H. inversion H; subst. now eexists; eexists. Qed.

Lemma matches_opt_inv b r m rest :
  Re.matches b (Re.Opt r) m rest -> m = "" \/ Re.matches b r m rest.
Proof. intros H. inversion H; subst; [now left | now right]. Qed.

Lemma matches_alt_inv b r1 r2 m rest :
  Re.matches b (Re.Alt r1 r2) m rest ->
  Re.matches b r1 m rest \/ Re.matches b r2 m rest.
Proof. intros H. inversion H; subst; [now left | now right]. Qed.

Lemma matches_plus_inv b p m rest :
  Re.matches b (Re.Plus p) m rest -> m <> "" /\ Re.all_in p m = true.
Proof. intros H. inversion H; subst. now split. Qed.

Lemma matches_star_inv b p m rest :
  Re.matches b (Re.Star p) m rest -> Re.all_in p m = true.
Proof. intros H. now inversion H; subst. Qed.

Lemma matches_cls_inv b p m rest :
  Re.matches b (Re.Cls p) m rest -> exists c, m = String c "" /\ p c = true.
Proof. intros H. inversion H; subst. now eexists. Qed.

Lemma matches_lit_inv b word m rest :
  Re.matches b (Re.Lit word) m rest -> m = word.
Proof. intros H. now inversion H; subst. Qed.

(** Every text the salary pattern matches is a run of digits and commas,
    then nothing or a period with digits, then nothing or whitespace with a
    suffix word. *)
Lemma salary_match_shape b m rest :
  Re.matches b JobScraper.salary_pattern m rest ->
  exists m1 m2 m3,
    m = m1 ++ m2 ++ m3 /\
    m1 <> "" /\ Re.all_in JobScraper.digit_or_comma m1 = true /\
    (m2 = "" \/
     exists digits, m2 = String "." digits /\ digits <> "" /\
                    Re.all_in PyStr.isdigit digits = true) /\
    (m3 = "" \/
     exists gap word, m3 = gap ++ word /\
                      Re.all_in PyStr.isspace gap = true /\
                      In word suffix_words).
Proof.
  unfold JobScraper.salary_pattern. intros H.
  apply matches_cat_inv in H as (m1 & m23 & -> & H1 & H23).
  apply matches_plus_inv in H1 as [Hne Hall].
  apply matches_cat_inv in H23 as (m2 & m3 & -> & H2 & H3).
  exists m1, m2, m3. repeat split; try assumption.
  - apply matches_opt_inv in H2 as [->|H2]; [now left | right].
    apply matches_cat_inv in H2 as (dot & digits & -> & Hdot & Hd).
    apply matches_cls_inv in Hdot as (c & -> & Hc).
    apply matches_plus_inv in Hd as [Hdne Hdall].
    apply Ascii.eqb_eq in Hc as ->. now exists digits.
  - apply matches_opt_inv in H3 as [->|H3]; [now left | right].
    apply matches_cat_inv in H3 as (gap & word & -> & Hg & Hw).
    apply matches_star_inv in Hg.
    exists gap, word. repeat split; [exact Hg|].
    unfold suffix_words.
    apply matches_alt_inv in Hw as [Hw|Hw];
      [apply matches_lit_inv in Hw; subst; simpl; tauto|].
    apply matches_alt_inv in Hw as [Hw|Hw];
      [apply matches_lit_inv in Hw; subst; simpl; tauto|].
    apply matches_alt_inv in Hw as [Hw|Hw];
      apply matches_lit_inv in Hw; subst; simpl; tauto.
Qed.

Lemma take_while_app p (a x : string) :
  Re.all_in p a = true ->
  PyStr.take_while p (a ++ x) = a ++ PyStr.take_while p x.
Proof.
  induction a as [|c a IH]; [reflexivity|]. simpl. intros H.
  apply andb_true_iff in H as [Hc Ha]. now rewrite Hc, IH.
Qed.

Lemma drop_while_app p (a x : string) :
  Re.all_in p a = true ->
  PyStr.drop_while p (a ++ x) = PyStr.drop_while p x.
Proof.
  induction a as [|c a IH]; [reflexivity|]. simpl. intros H.
  apply andb_true_iff in H as [Hc Ha]. now rewrite Hc, IH.
Qed.

Lemma take_while_stop p (x : string) :
  starts_with p x = false -> PyStr.take_while p x = "".
Proof. destruct x as [|c x]; [reflexivity|]. simpl. now intros ->. Qed.

Lemma drop_while_stop p (x : string) :
  starts_with p x = false -> PyStr.drop_while p x = x.
Proof. destruct x as [|c x]; [reflexivity|]. simpl. now intros ->. Qed.

Lemma suffix_head_classes (c : ascii) :
  suffix_head c = true ->
  JobScraper.digit_or_comma c = false /\ PyStr.isdigit c = false /\
  (c =? ".")%char = false.
Proof. ascii_cases c; vm_compute; intros H; repeat split; congruence. Qed.

Lemma suffix_word_head (word : string) :
  In word suffix_words ->
  exists c t, word = String c t /\ suffix_head c = true /\
              PyStr.isspace c = false.
Proof.
  unfold suffix_words. simpl.
  intros [<-|[<-|[<-|[<-|[]]]]]; eexists; eexists;
    (split; [reflexivity|]); split; reflexivity.
Qed.

(** Whitespace followed by a suffix word begins with a character that can
    neither continue the digits nor begin a decimal part. *)
Lemma gap_word_head (gap word x : string) :
  Re.all_in PyStr.isspace gap = true -> In word suffix_words ->
  exists c t, gap ++ word ++ x = String c t /\ suffix_head c = true.
Proof.
  intros Hg Hw. destruct gap as [|c gap].
  - destruct (suffix_word_head word Hw) as (c & t & -> & Hc & _).
    now exists c, (t ++ x).
  - simpl in Hg. apply andb_true_iff in Hg as [Hc _].
    exists c, (gap ++ word ++ x). split; [reflexivity|].
    unfold suffix_head. now rewrite Hc.
Qed.

Lemma prefix_append (word x : string) : prefix word (word ++ x) = true.
Proof. apply prefix_iff. now exists x. Qed.

(** On whitespace followed by a suffix word, [suffix_part] is exactly
    that. *)
Lemma suffix_part_exact (gap word x : string) :
  Re.all_in PyStr.isspace gap = true -> In word suffix_words ->
  suffix_part (gap ++ word ++ x) = gap ++ word.
Proof.
  intros Hg Hw. unfold suffix_part.
  destruct (suffix_word_head word Hw) as (c & t & Hword & _ & Hc).
  assert (Hstop : starts_with PyStr.isspace (word ++ x) = false)
    by (rewrite Hword; exact Hc).
  rewrite take_while_app, drop_while_app by exact Hg.
  rewrite take_while_stop, drop_while_stop by exact Hstop.
  rewrite append_nil_r.
  assert (Hfind : find (fun w => prefix w (word ++ x)) suffix_words
                  = Some word).
  { unfold suffix_words in *. simpl in Hw.
    destruct Hw as [<-|[<-|[<-|[<-|[]]]]]; cbn [find].
    - now rewrite prefix_append.
    - change (prefix "lakh" ("LPA" ++ x)) with false. cbv iota.
      now rewrite prefix_append.
    - change (prefix "lakh" ("per annum" ++ x)) with false.
      change (prefix "LPA" ("per annum" ++ x)) with false. cbv iota.
      now rewrite prefix_append.
    - change (prefix "lakh" ("PA" ++ x)) with false.
      change (prefix "LPA" ("PA" ++ x)) with false.
      change (prefix "per annum" ("PA" ++ x)) with false. cbv iota.
      now rewrite prefix_append. }
  now rewrite Hfind.
Qed.

Lemma suffix_part_covers (m3 x : string) :
  m3 = "" \/
  (exists gap word, m3 = gap ++ word /\
                    Re.all_in PyStr.isspace gap = true /\
                    In word suffix_words) ->
  String.length m3 <= String.length (suffix_part (m3 ++ x)).
Proof.
  intros [->|(gap & word & -> & Hg & Hw)]; [simpl; lia|].
  rewrite append_assoc, suffix_part_exact by assumption. lia.
Qed.

Lemma suffix_starts (m3 x : string) (p : ascii -> bool) :
  (forall c, suffix_head c = true -> p c = false) ->
  starts_with p (m3 ++ x) = true ->
  m3 = "" \/
  (exists gap word, m3 = gap ++ word /\
                    Re.all_in PyStr.isspace gap = true /\
                    In word suffix_words) ->
  m3 = "".
Proof.
  intros Hp Hs [->|(gap & word & -> & Hg & Hw)]; [reflexivity|].
  rewrite append_assoc in Hs.
  destruct (gap_word_head gap word x Hg Hw) as (c & t & Heq & Hc).
  rewrite Heq in Hs. cbn [starts_with] in Hs.
  rewrite (Hp c Hc) in Hs. discriminate.
Qed.

Lemma starts_with_app p (a x : string) :
  a <> "" -> Re.all_in p a = true -> starts_with p (a ++ x) = true.
Proof.
  destruct a as [|c a]; [contradiction|]. simpl. intros _ H.
  now apply andb_true_iff in H as [Hc _].
Qed.

(** What the token takes after the digits and commas is at least as long
    as what any match takes there. *)
Lemma salary_tail_covers (m2 m3 post : string) :
  (m2 = "" \/
   exists digits, m2 = String "." digits /\ digits <> "" /\
                  Re.all_in PyStr.isdigit digits = true) ->
  (m3 = "" \/
   exists gap word, m3 = gap ++ word /\
                    Re.all_in PyStr.isspace gap = true /\
                    In word suffix_words) ->
  let y := m2 ++ m3 ++ post in
  let rest := PyStr.drop_while JobScraper.digit_or_comma y in
  String.length m2 + String.length m3
  <= String.length (PyStr.take_while JobScraper.digit_or_comma y)
     + String.length (decimal_part rest)
     + String.length (suffix_part (after_decimal rest)).
Proof.
  intros H2 H3. cbv zeta.
  destruct H2 as [->|(digits & -> & Hne & Hd)].
  - cbn [append].
    destruct (starts_with JobScraper.digit_or_comma (m3 ++ post)) eqn:Hs.
    + assert (m3 = "") as ->.
      { eapply suffix_starts; [|exact Hs | exact H3].
        intros c Hc. now apply suffix_head_classes in Hc. }
      simpl. lia.
    + rewrite take_while_stop, drop_while_stop by exact Hs.
      destruct (m3 ++ post) as [|c t] eqn:Hy.
      * destruct m3; [simpl; lia | discriminate].
      * unfold decimal_part, after_decimal.
        destruct ((c =? ".")%char && starts_with PyStr.isdigit t) eqn:Hc.
        -- assert (m3 = "") as ->.
           { eapply (suffix_starts m3 post (fun x => (x =? ".")%char));
               [| |exact H3].
             - intros x Hx. now apply suffix_head_classes in Hx.
             - rewrite Hy. cbn [starts_with].
               now apply andb_true_iff in Hc as [Hc _]. }
           simpl. lia.
        -- rewrite <- Hy. pose proof (suffix_part_covers m3 post H3).
           simpl. lia.
  - cbn [append PyStr.take_while PyStr.drop_while].
    change (JobScraper.digit_or_comma ".") with false. cbv iota.
    unfold decimal_part, after_decimal.
    change ("." =? ".")%char with true. cbn [andb].
    rewrite (starts_with_app _ digits _ Hne Hd).
    rewrite take_while_app, drop_while_app by exact Hd.
    destruct (starts_with PyStr.isdigit (m3 ++ post)) eqn:Hs.
    + assert (m3 = "") as ->.
      { eapply suffix_starts; [|exact Hs | exact H3].
        intros c Hc. now apply suffix_head_classes in Hc. }
      cbn [String.length]. rewrite length_append. simpl. lia.
    + rewrite take_while_stop, drop_while_stop by exact Hs.
      pose proof (suffix_part_covers m3 post H3).
      cbn [String.length]. rewrite append_nil_r. simpl. lia.
Qed.

(** No match of the pattern, at the place where the token starts, is longer
    than the token. *)
Lemma salary_token_longest b (m post : string) :
  Re.matches b JobScraper.salary_pattern m post ->
  String.length m <= String.length (salary_token (m ++ post)).
Proof.
  intros H.
  apply salary_match_shape in H as (m1 & m2 & m3 & -> & Hne & H1 & H2 & H3).
  unfold salary_token. rewrite !append_assoc.
  rewrite take_while_app, drop_while_app by exact H1.
  pose proof (salary_tail_covers m2 m3 post H2 H3) as Hc. cbv zeta in Hc.
  rewrite !length_append in *. lia.
Qed.

Lemma salary_match_starts b (m post : string) :
  Re.matches b JobScraper.salary_pattern m post ->
  starts_with JobScraper.digit_or_comma m = true.
Proof.
  intros H.
  apply salary_match_shape in H as (m1 & m2 & m3 & -> & Hne & H1 & _).
  now apply starts_with_app.
Qed.

(** Nothing that begins with a digit or a comma lies before the first digit
    or comma. *)
Lemma first_digit_or_comma_leftmost (raw pre x : string) :
  raw = pre ++ x ->
  starts_with JobScraper.digit_or_comma x = true ->
  String.length (PyStr.take_while no_digit_or_comma raw)
  <= String.length pre.
Proof.
  revert raw. induction pre as [|a pre IH]; intros raw -> Hx.
  - destruct x as [|c x]; [discriminate|]. cbn [starts_with] in Hx.
    cbn [append PyStr.take_while]. unfold no_digit_or_comma.
    rewrite Hx. simpl. lia.
  - cbn [append PyStr.take_while].
    destruct (no_digit_or_comma a); [|simpl; lia].
    cbn [String.length]. apply le_n_S. now apply IH.
Qed.

Lemma append_inv_head (a x y : string) : a ++ x = a ++ y -> x = y.
Proof.
  induction a as [|c a IH]; [trivial|]. simpl. intros H.
  injection H as H. now apply IH.
Qed.

(** C6: for every record whose salary text is non-empty and in ASCII,
    cleaning replaces the salary by the first substring that matches the
    pattern: the numeric token that starts at the first digit or comma (its
    run of digits and commas, a decimal part, a suffix).  Among the texts
    the pattern matches anywhere in the raw salary it is the one that starts
    leftmost and, there, the longest.  When no substring matches, the raw
    text is kept.  So "6-8 LPA" becomes "6", and "12.5 LPA" stays whole. *)
Theorem salary_cleaning (job_data : RawJobRecord) :
  salary job_data <> "" ->
  is_ascii (salary job_data) = true ->
  let raw := salary job_data in
  let cleaned := salary (JobScraper._clean_job_data job_data) in
  cleaned = first_salary_token raw
  /\ ((exists pre,
          Re.matches_in JobScraper.salary_pattern raw pre cleaned /\
          (forall pre' m',
              Re.matches_in JobScraper.salary_pattern raw pre' m' ->
              String.length pre <= String.length pre') /\
          (forall m',
              Re.matches_in JobScraper.salary_pattern raw pre m' ->
              String.length m' <= String.length cleaned))
      \/
      ((forall pre' m',
           ~ Re.matches_in JobScraper.salary_pattern raw pre' m') /\
       cleaned = raw))
  /\ (raw = "6-8 LPA" -> cleaned = "6")
  /\ (raw = "12.5 LPA" -> cleaned = "12.5 LPA").
Proof.
  intros Hne _ raw cleaned. subst raw cleaned.
  rewrite clean_salary_token.
  split; [reflexivity|]. split.
  2:{ split; intros ->; reflexivity. }
  unfold first_salary_token.
  set (raw := salary job_data).
  pose proof (take_drop_while no_digit_or_comma raw) as Hsplit.
  destruct (PyStr.drop_while no_digit_or_comma raw) as [|c t] eqn:Hd.
  - right. split; [|reflexivity].
    apply search_none. unfold Re.search.
    now rewrite search_from_salary_token, Hd.
  - left. set (pre := PyStr.take_while no_digit_or_comma raw) in *.
    assert (Hc : JobScraper.digit_or_comma c = true).
    { apply drop_while_head in Hd. unfold no_digit_or_comma in Hd.
      now apply negb_false_iff in Hd. }
    exists pre. repeat split.
    + assert (Hle : String.length (String c t) <= String.length raw).
      { rewrite <- Hsplit. rewrite length_append. lia. }
      destruct (match_here_sound (String.length raw) _ _ _ Hle
                  (match_here_salary_token _ c t Hc)) as (rest & Hrest & Hm).
      exists rest. split.
      * rewrite <- Hrest. now symmetry.
      * rewrite <- Hsplit in Hm. now rewrite at_start_iff in Hm.
    + intros pre' m' (post' & Heq & Hm).
      apply (first_digit_or_comma_leftmost raw pre' (m' ++ post') Heq).
      apply salary_match_starts in Hm.
      destruct m' as [|x m']; [discriminate | exact Hm].
    + intros m' (post' & Heq & Hm).
      rewrite <- Hsplit in Heq. apply append_inv_head in Heq.
      rewrite Heq. now apply salary_token_longest in Hm.
Qed.

Lemma salary_cleaning_witness :
  salary job_with_range <> "" /\
  is_ascii (salary job_with_range) = true /\
  salary (JobScraper._clean_job_data job_with_range) = "6" /\
  salary (JobScraper._clean_job_data job_with_decimal_salary) = "12.5 LPA".
Proof.
  assert (Hne : salary job_with_range <> "") by discriminate.
  split; [exact Hne|]. split; [reflexivity|]. split.
  - exact (proj1 (proj2 (proj2 (salary_cleaning job_with_range Hne eq_refl)))
                 eq_refl).
  - assert (Hne' : salary job_with_decimal_salary <> "") by discriminate.
    rewrite (proj1 (salary_cleaning job_with_decimal_salary Hne' eq_refl)).
    reflexivity.
Defined.
